(** * COMET download utilities ([comet/download_utils.py])

    A shallow embedding of the model download, cache and checkpoint
    resolution code, with the properties of its specification.

    Python [str] values are Rocq strings (one character per byte), the
    optional arguments defaulting to [None] are [option]s, exceptions are
    the constructors of [exn], and every function that touches the file
    system, the network or a subprocess runs in the monad [M], which
    threads a [World] and keeps it when an exception is raised. *)

From Stdlib Require Import String Ascii List Bool Arith Lia.
From Stdlib Require Import ZArith.
Import ListNotations.

Open Scope string_scope.
Open Scope list_scope.

(** ** Python string methods *)

Module PyStr.

(** [s.startswith(pre)] *)
Fixpoint startswith (s pre : string) : bool :=
  match pre, s with
  | EmptyString, _ => true
  | String _ _, EmptyString => false
  | String a pre', String b s' => Ascii.eqb a b && startswith s' pre'
  end.

(** [s.endswith(suf)]: some tail of [s] is [suf]. *)
Fixpoint endswith (s suf : string) : bool :=
  String.eqb s suf ||
  match s with
  | EmptyString => false
  | String _ r => endswith r suf
  end.

(** [sub in s] *)
Fixpoint contains (sub s : string) : bool :=
  startswith s sub ||
  match s with
  | EmptyString => false
  | String _ r => contains sub r
  end.

(** [c in s] for a single character. *)
Fixpoint has_char (c : ascii) (s : string) : bool :=
  match s with
  | EmptyString => false
  | String a r => Ascii.eqb a c || has_char c r
  end.

(** [s.split(sep)] for a one-character separator: never empty. *)
Fixpoint split (sep : ascii) (s : string) : list string :=
  match s with
  | EmptyString => [EmptyString]
  | String a r =>
      if Ascii.eqb a sep then EmptyString :: split sep r
      else match split sep r with
           | h :: t => String a h :: t
           | [] => [s]
           end
  end.

(** [s.split(sep, 1)] for a one-character separator: one or two parts. *)
Fixpoint split1 (sep : ascii) (s : string) : list string :=
  match s with
  | EmptyString => [EmptyString]
  | String a r =>
      if Ascii.eqb a sep then [EmptyString; r]
      else match split1 sep r with
           | h :: t => String a h :: t
           | [] => [s]
           end
  end.

End PyStr.

(** ** [os.path] on a POSIX system *)

Module OsPath.

Definition sep : string := "/".
Definition sep_char : ascii := "/"%char.

(** [posixpath.join(a, *p)]: a component that starts with the separator
    discards what came before it. *)
Fixpoint join (a : string) (p : list string) : string :=
  match p with
  | [] => a
  | b :: p' =>
      if PyStr.startswith b sep then join b p'
      else if String.eqb a "" || PyStr.endswith a sep then join (a ++ b) p'
      else join (a ++ sep ++ b) p'
  end.

(** [posixpath.basename(p)]: what follows the last separator. *)
Fixpoint basename (p : string) : string :=
  match p with
  | EmptyString => EmptyString
  | String a r =>
      if PyStr.has_char sep_char r then basename r
      else if Ascii.eqb a sep_char then r
      else p
  end.

End OsPath.

(** ** The file system

    A tree of directories; a directory keeps its entries in the order in
    which [os.listdir] enumerates them.  Files carry no content: the code
    only tests for their presence.  Paths are resolved from the root (the
    working directory of the process is the root), empty and ["."]
    components are skipped.  The model has no symbolic links, and a
    [".."] component is not a step to the parent: what is said of paths
    holds for paths without [".."] components. *)

#[warnings="-register-all"]
Inductive node : Type :=
| File : node
| Dir : list (string * node) -> node.

Module Fs.

Fixpoint find_entry (name : string) (es : list (string * node)) : option node :=
  match es with
  | [] => None
  | (n, x) :: es' => if String.eqb n name then Some x else find_entry name es'
  end.

Definition skipped (c : string) : bool := String.eqb c "" || String.eqb c ".".

Definition components (p : string) : list string :=
  filter (fun c => negb (skipped c)) (PyStr.split OsPath.sep_char p).

(** A path whose last raw component is empty or ["."] (["a/"], ["a/."])
    can only name a directory. *)
Definition names_directory (p : string) : bool :=
  skipped (last (PyStr.split OsPath.sep_char p) "").

Fixpoint walk (cs : list string) (n : node) : option node :=
  match cs with
  | [] => Some n
  | c :: cs' =>
      match n with
      | File => None
      | Dir es =>
          match find_entry c es with
          | Some n' => walk cs' n'
          | None => None
          end
      end
  end.

(** What the path names, if anything. *)
Definition stat (root : node) (p : string) : option node :=
  if String.eqb p "" then None
  else match walk (components p) root with
       | Some File => if names_directory p then None else Some File
       | r => r
       end.

Definition exists_ (root : node) (p : string) : bool :=
  match stat root p with Some _ => true | None => false end.

Definition isdir (root : node) (p : string) : bool :=
  match stat root p with Some (Dir _) => true | _ => false end.

Definition isfile (root : node) (p : string) : bool :=
  match stat root p with Some File => true | _ => false end.

(** The node [x] below the fresh directories [c1/c2/.../cn]. *)
Fixpoint wrap (cs : list string) (x : node) : node :=
  match cs with
  | [] => x
  | c :: cs' => Dir [(c, wrap cs' x)]
  end.

Definition replace (name : string) (x : node) (es : list (string * node))
  : list (string * node) :=
  map (fun e => if String.eqb (fst e) name then (fst e, x) else e) es.

(** The node [x] put at [cs], with the missing parents created; a new
    entry comes last in its directory.  [None] when the walk meets a
    file. *)
Fixpoint put (cs : list string) (x : node) (n : node) : option node :=
  match cs with
  | [] => Some x
  | c :: cs' =>
      match n with
      | File => None
      | Dir es =>
          match find_entry c es with
          | None => Some (Dir (es ++ [(c, wrap cs' x)]))
          | Some n' =>
              match put cs' x n' with
              | Some n'' => Some (Dir (replace c n'' es))
              | None => None
              end
          end
      end
  end.

(** Creation of the directory [cs] with its missing parents. *)
Definition mkdirs (cs : list string) (n : node) : option node :=
  put cs (Dir []) n.

(** Removal of the entry that [cs] names. *)
Fixpoint remove_at (cs : list string) (n : node) : node :=
  match cs with
  | [] => n
  | c :: cs' =>
      match n with
      | File => File
      | Dir es =>
          match cs' with
          | [] => Dir (filter (fun e => negb (String.eqb (fst e) c)) es)
          | _ :: _ =>
              Dir (map (fun e => if String.eqb (fst e) c
                                 then (fst e, remove_at cs' (snd e))
                                 else e) es)
          end
      end
  end.

Definition is_dir (x : node) : bool :=
  match x with Dir _ => true | File => false end.

End Fs.

(** ** Exceptions, the world and the monad *)

Inductive exn : Type :=
| AttributeError (msg : string)
| Exception_ (msg : string)          (* [Exception(msg)] *)
| ValueError (msg : string)
| IndexError (msg : string)
| FileNotFoundError (path : string)
| FileExistsError (path : string)
| IsADirectoryError (path : string)
| NotADirectoryError (path : string)
| ExternalError (msg : string).      (* raised inside urllib, zipfile, subprocess *)

Inductive Result (A : Type) : Type :=
| Ok (a : A)
| Raise (e : exn).

Arguments Ok {A} a.
Arguments Raise {A} e.

(** What the process does besides changing the file system. *)
Inductive Event : Type :=
| EvLog (msg : string)                          (* [logger.info] *)
| EvUrlretrieve (url filename : string)         (* [urllib.request.urlretrieve] *)
| EvZipExtractall (archive directory : string)  (* [ZipFile(..).extractall] *)
| EvSubprocess (argv : list string).            (* [subprocess.call] *)

Record World : Type := mkWorld { fs : node; trace : list Event }.

Definition M (A : Type) : Type := World -> Result A * World.

Definition ret {A} (a : A) : M A := fun w => (Ok a, w).

Definition raise {A} (e : exn) : M A := fun w => (Raise e, w).

Definition bind {A B} (m : M A) (k : A -> M B) : M B :=
  fun w => match m w with
           | (Ok a, w') => k a w'
           | (Raise e, w') => (Raise e, w')
           end.

Declare Scope py_scope.
Delimit Scope py_scope with py.
Notation "x <- m ;; k" := (bind m (fun x => k))
  (at level 61, m at next level, right associativity) : py_scope.
Notation "m ;; k" := (bind m (fun _ => k))
  (at level 61, right associativity) : py_scope.
Open Scope py_scope.

Definition emit (ev : Event) : M unit :=
  fun w => (Ok tt, mkWorld (fs w) (trace w ++ [ev])).

Definition logger_info (msg : string) : M unit := emit (EvLog msg).

(** A step of the outside world: the file system it leaves and whether it
    raised. *)
Definition external (f : node -> Result unit * node) : M unit :=
  fun w => let (r, root) := f (fs w) in (r, mkWorld root (trace w)).

(** ** [os] *)

Definition os_path_exists (p : string) : M bool :=
  fun w => (Ok (Fs.exists_ (fs w) p), w).

Definition os_path_isdir (p : string) : M bool :=
  fun w => (Ok (Fs.isdir (fs w) p), w).

Definition os_path_isfile (p : string) : M bool :=
  fun w => (Ok (Fs.isfile (fs w) p), w).

Definition os_listdir (p : string) : M (list string) :=
  fun w => match Fs.stat (fs w) p with
           | Some (Dir es) => (Ok (map fst es), w)
           | Some File => (Raise (NotADirectoryError p), w)
           | None => (Raise (FileNotFoundError p), w)
           end.

(** [os.makedirs(p)]: the missing directories are created in one step,
    and an error names the path that was given. *)
Definition os_makedirs (p : string) : M unit :=
  fun w =>
    if String.eqb p "" then (Raise (FileNotFoundError p), w)
    else match Fs.walk (Fs.components p) (fs w) with
         | Some _ => (Raise (FileExistsError p), w)
         | None =>
             match Fs.mkdirs (Fs.components p) (fs w) with
             | Some root => (Ok tt, mkWorld root (trace w))
             | None => (Raise (NotADirectoryError p), w)
             end
         end.

Definition os_remove (p : string) : M unit :=
  fun w => match Fs.stat (fs w) p with
           | Some File =>
               (Ok tt, mkWorld (Fs.remove_at (Fs.components p) (fs w)) (trace w))
           | Some (Dir _) => (Raise (IsADirectoryError p), w)
           | None => (Raise (FileNotFoundError p), w)
           end.

(** ** Python objects with methods

    [get_cache_folder] calls [exists] and [mkdir] on the value that
    [os.path.join] returns, so the class of that value matters: a [str] has
    neither method, a [pathlib.Path] has both. *)

Inductive pyobj : Type :=
| PyStr_ (s : string)
| PyPath (s : string).

Definition str (o : pyobj) : string :=
  match o with PyStr_ s => s | PyPath s => s end.

(** [o.exists()] *)
Definition method_exists (o : pyobj) : M bool :=
  match o with
  | PyPath p => os_path_exists p
  | PyStr_ _ => raise (AttributeError "'str' object has no attribute 'exists'")
  end.

(** [o.mkdir(exist_ok=True, parents=True)] *)
Definition method_mkdir (o : pyobj) : M unit :=
  match o with
  | PyPath p =>
      d <- os_path_isdir p ;;
      if d then ret tt else os_makedirs p
  | PyStr_ _ => raise (AttributeError "'str' object has no attribute 'mkdir'")
  end.

(** [os.path.join(a, *p)] takes strings and path objects ([os.fspath]) and
    returns a [str]. *)
Definition os_path_join_obj (a : pyobj) (p : list string) : pyobj :=
  PyStr_ (OsPath.join (str a) p).

(** [d[k]] and [k in d.keys()] on a dict given by its items. *)
Fixpoint dict_get (d : list (string * string)) (k : string) : option string :=
  match d with
  | [] => None
  | (k', v) :: d' => if String.eqb k' k then Some v else dict_get d' k
  end.

(** [l[-1]] *)
Definition last_item (l : list string) : Result string :=
  match l with
  | [] => Raise (IndexError "list index out of range")
  | x :: l' => Ok (last l' x)
  end.

(** [l[1]] *)
Definition item1 (l : list string) : Result string :=
  match l with
  | _ :: x :: _ => Ok x
  | _ => Raise (IndexError "list index out of range")
  end.

Definition lift {A} (r : Result A) : M A := fun w => (r, w).

(** ** The collaborators outside the repository

    [Path.home()], [urlparse(url).path], the transfer of
    [urllib.request.urlretrieve], the extraction of [zipfile] and the [tar]
    subprocess are not code of this repository: each is taken as it
    behaves, as a function of the file system it finds.  [urlparse] does
    not accept every string: [urlparse_path] is the path of the URL, or
    the exception that [urlparse] raises on it. *)

Record Externals : Type := mkExternals {
  home : string;
  urlparse_path : string -> Result string;
  urlretrieve_fs : string -> string -> node -> Result unit * node;
  zip_extractall_fs : string -> string -> node -> Result unit * node;
  subprocess_fs : list string -> node -> Result unit * node
}.

(** ** The program *)

(* [a + b] on Python strings *)
Open Scope string_scope.

Section Program.

Variable X : Externals.

(** [comet.models.available_metrics], the registry of model names. *)
Variable available_metrics : list (string * string).

(** [urlretrieve(url, filename=filepath, reporthook=...)]; the progress
    bar of [tqdm] and [_reporthook] only print. *)
Definition urlretrieve (url filepath : string) : M unit :=
  emit (EvUrlretrieve url filepath) ;;
  external (urlretrieve_fs X url filepath).

Definition ZipFile_extractall (archive directory : string) : M unit :=
  emit (EvZipExtractall archive directory) ;;
  external (zip_extractall_fs X archive directory).

(** [subprocess.call(argv, stdout=devnull)]; the exit status is dropped. *)
Definition subprocess_call (argv : list string) : M unit :=
  emit (EvSubprocess argv) ;;
  external (subprocess_fs X argv).

(** Lines 32-42. *)
Definition get_cache_folder : M string :=
  let cache_directory :=
    os_path_join_obj (PyPath (home X)) [".cache"; "torch"; "unbabel_comet"] in
  e <- method_exists cache_directory ;;
  (if negb e then method_mkdir cache_directory else ret tt) ;;
  ret (str cache_directory).

(** Lines 82-84: the extension when none is given. *)
Definition derive_extension (compressed_filename : string) : Result string :=
  let basename := OsPath.basename compressed_filename in
  item1 (PyStr.split1 "."%char basename).

(** Lines 72-103. *)
Definition _maybe_extract (compressed_filename directory : string)
           (extension : option string) : M unit :=
  logger_info ("Extracting " ++ compressed_filename) ;;
  extension <- match extension with
               | None => lift (derive_extension compressed_filename)
               | Some e => ret e
               end ;;
  (if PyStr.contains "zip" extension then
     ZipFile_extractall compressed_filename directory
   else if PyStr.contains "tar.gz" extension || PyStr.contains "tgz" extension then
     subprocess_call ["tar"; "-C"; directory; "-zxvf"; compressed_filename]
   else if PyStr.contains "tar" extension then
     subprocess_call ["tar"; "-C"; directory; "-xvf"; compressed_filename]
   else ret tt) ;;
  logger_info ("Extracted " ++ compressed_filename).

(** Lines 106-116. *)
Definition _get_filename_from_url (url : string) : Result string :=
  match urlparse_path X url with
  | Ok path => Ok (OsPath.basename path)
  | Raise e => Raise e
  end.

(** Lines 119-128. *)
Definition _check_download (filepaths : list string) : M bool :=
  fun w => (Ok (forallb (Fs.isfile (fs w)) filepaths), w).

(** Lines 168-169. *)
Definition ensure_directory (directory : string) : M unit :=
  d <- os_path_isdir directory ;;
  if negb d then os_makedirs directory else ret tt.

(** Lines 168-179: the directory, the transfer and the extraction. *)
Definition transfer_and_extract (url directory filename filepath : string)
           (extension : option string) : M unit :=
  ensure_directory directory ;;
  logger_info ("Downloading " ++ filename) ;;
  urlretrieve url filepath ;;
  _maybe_extract filepath directory extension.

(** Lines 131-184. *)
Definition download_file_maybe_extract (url directory : string)
           (filename extension : option string) (check_files : list string)
  : M string :=
  filename <- lift (match filename with
                    | None => _get_filename_from_url url
                    | Some f => Ok f
                    end) ;;
  let filepath := OsPath.join directory [filename] in
  let check_files := map (fun f => OsPath.join directory [f]) check_files in
  cached <- _check_download check_files ;;
  if Nat.ltb 0 (length check_files) && cached then ret filepath
  else
    transfer_and_extract url directory filename filepath extension ;;
    found <- _check_download check_files ;;
    if negb found then raise (ValueError "[DOWNLOAD FAILED] `*check_files` not found")
    else ret filepath.

(** Lines 208-215: the saving directory, with its separator, created when
    missing. *)
Definition prepare_saving_directory (saving_directory : option string) : M string :=
  saving_directory <- match saving_directory with
                      | None => get_cache_folder
                      | Some d => ret d
                      end ;;
  let saving_directory :=
    if PyStr.endswith saving_directory OsPath.sep then saving_directory
    else saving_directory ++ OsPath.sep in
  e <- os_path_exists saving_directory ;;
  (if negb e then os_makedirs saving_directory else ret tt) ;;
  ret saving_directory.

Definition unknown_model_message (model : string) : string :=
  model ++ " is not in the `available_metrics` or is a valid checkpoint path.".

(** Lines 217-233: cache hit, or lookup in the registry and download.
    Returns [model] as the rest of the function sees it. *)
Definition locate_or_download (saving_directory model : string) : M string :=
  d <- os_path_isdir (saving_directory ++ model) ;;
  if d then
    logger_info (model ++ " is already in cache.") ;;
    ret (if PyStr.endswith model OsPath.sep then model else model ++ OsPath.sep)
  else
    match dict_get available_metrics model with
    | None => raise (Exception_ (unknown_model_message model))
    | Some url =>
        if PyStr.startswith url "https://" then
          download_file_maybe_extract url saving_directory None None [] ;;
          ret model
        else raise (Exception_ "Invalid model name!")
    end.

Definition remove_if_exists (p : string) : M unit :=
  e <- os_path_exists p ;;
  if e then os_remove p else ret tt.

(** Lines 235-241. *)
Definition clean_cache (saving_directory model : string) : M unit :=
  remove_if_exists ((saving_directory ++ model) ++ ".zip") ;;
  remove_if_exists ((saving_directory ++ model) ++ ".tar.gz") ;;
  remove_if_exists ((saving_directory ++ model) ++ ".tar").

Definition checkpoints_folder (saving_directory model : string) : string :=
  ((saving_directory ++ model) ++ OsPath.sep) ++ "checkpoints".

(** Lines 243-249. *)
Definition select_checkpoint (saving_directory model : string) : M string :=
  let checkpoints_folder := checkpoints_folder saving_directory model in
  files <- os_listdir checkpoints_folder ;;
  let checkpoints := filter (fun file => PyStr.endswith file ".ckpt") files in
  checkpoint <- lift (last_item checkpoints) ;;
  let checkpoint_path := OsPath.join checkpoints_folder [checkpoint] in
  ret checkpoint_path.

(** Lines 187-249. *)
Definition download_model (model : string) (saving_directory : option string)
  : M string :=
  saving_directory <- prepare_saving_directory saving_directory ;;
  model <- locate_or_download saving_directory model ;;
  clean_cache saving_directory model ;;
  select_checkpoint saving_directory model.

(** Lines 158-159, the name of the downloaded file: the given one, or
    the last segment of the URL's path when the URL can be parsed. *)
Definition chosen_filename (url : string) (filename : option string)
  : Result string :=
  match filename with
  | None => _get_filename_from_url url
  | Some f => Ok f
  end.

Definition marker_paths (directory : string) (check_files : list string)
  : list string :=
  map (fun f => OsPath.join directory [f]) check_files.

(** Line 165: the markers are given and every one of them is a file. *)
Definition short_circuits (directory : string) (check_files : list string)
           (w : World) : bool :=
  Nat.ltb 0 (length check_files) &&
  forallb (Fs.isfile (fs w)) (marker_paths directory check_files).

Definition verification_error : exn :=
  ValueError "[DOWNLOAD FAILED] `*check_files` not found".

End Program.

(** ** The selection that the specification describes

    [sorted] sorts a list of strings in ascending order, as Python compares
    strings: character by character, by code. *)

Module SpecSelection.

Fixpoint insert (x : string) (l : list string) : list string :=
  match l with
  | [] => [x]
  | y :: l' => if String.leb x y then x :: l else y :: insert x l'
  end.

Fixpoint sorted (l : list string) : list string :=
  match l with
  | [] => []
  | x :: l' => insert x (sorted l')
  end.

(** The directory is enumerated in ascending order. *)
Fixpoint ascending (l : list string) : bool :=
  match l with
  | [] => true
  | x :: l' =>
      match l' with
      | [] => true
      | y :: _ => String.leb x y && ascending l'
      end
  end.

(** "The last element after ascending sort of the filtered directory
    listing", as a full path. *)
Definition spec_checkpoint_path (folder : string) (files : list string)
  : Result string :=
  match last_item (sorted (filter (fun file => PyStr.endswith file ".ckpt") files)) with
  | Ok checkpoint => Ok (OsPath.join folder [checkpoint])
  | Raise e => Raise e
  end.

End SpecSelection.

(** ** Statements about effects *)

(** A computation that only adds to the trace. *)
Definition grows {A} (m : M A) : Prop :=
  forall w, exists tr, trace (snd (m w)) = (trace w ++ tr)%list.

(** What [_maybe_extract] leaves when it announces the extraction of [f],
    runs one external step that records [ev], and reports the end if the
    step raised nothing. *)
Definition extraction_outcome (f : string) (ev : Event)
           (step : Result unit * node) (w : World) : Result unit * World :=
  let started := (trace w ++ [EvLog ("Extracting " ++ f); ev])%list in
  match step with
  | (Ok _, root) =>
      (Ok tt, mkWorld root (started ++ [EvLog ("Extracted " ++ f)])%list)
  | (Raise e, root) => (Raise e, mkWorld root started)
  end.

(** The extension that lines 86-101 test: the argument, or the derived
    one. *)
Definition extension_used (compressed_filename : string)
           (extension : option string) : Result string :=
  match extension with
  | None => derive_extension compressed_filename
  | Some e => Ok e
  end.

(** The entries that line 245 keeps. *)
Definition matching_checkpoints (files : list string) : list string :=
  filter (fun file => PyStr.endswith file ".ckpt") files.

(** The run of [download_model] gets past lines 208-241: the directory is
    prepared, the model is found in the cache or downloaded, and the
    cleanup raises nothing.  [saving_directory] and [model'] are the values
    of the two variables at line 243, [w3] is the world there. *)
Definition reaches_checkpoint_step (X : Externals)
           (available_metrics : list (string * string))
           (model : string) (saving_directory_arg : option string) (w : World)
           (saving_directory model' : string) (w3 : World) : Prop :=
  exists w1 w2,
    prepare_saving_directory X saving_directory_arg w = (Ok saving_directory, w1)
    /\ locate_or_download X available_metrics saving_directory model w1
       = (Ok model', w2)
    /\ clean_cache saving_directory model' w2 = (Ok tt, w3).

(** The three paths that lines 236-241 test. *)
Definition archive_paths (saving_directory model : string) : list string :=
  [(saving_directory ++ model) ++ ".zip";
   (saving_directory ++ model) ++ ".tar.gz";
   (saving_directory ++ model) ++ ".tar"].

(** "A valid filesystem path to a checkpoint": an existing file with the
    checkpoint suffix. *)
Definition valid_checkpoint_path (root : node) (p : string) : bool :=
  Fs.isfile root p && PyStr.endswith p ".ckpt".

(** The exceptions that the module constructs in its own [raise]
    statements (lines 182, 223 and 233); every other one comes out of a
    built-in operation or a library. *)
Definition raised_by_module (e : exn) : bool :=
  match e with
  | Exception_ _ | ValueError _ => true
  | _ => false
  end.

(** ** A concrete world

    A registry, collaborators and file systems on which the program runs
    by computation: the transfer writes the file it is asked for, the
    archive [demo.zip] holds [demo/checkpoints/] with three checkpoints in
    the order [a], [c], [b], and [tar] does nothing. *)

Module Demo.

Definition registry : list (string * string) :=
  [("demo", "https://example.test/demo.zip");
   ("noext", "https://example.test/modelnoext");
   ("legacy", "s3://bucket/legacy.zip")].

(** The path of an [https://host/path] URL. *)
Definition url_path (url : string) : string :=
  match PyStr.split1 "/"%char (substring 8 (String.length url - 8) url) with
  | [_; rest] => "/" ++ rest
  | _ => ""
  end.

(** [urlparse] on an [https://host/path] URL: a host with one square
    bracket and not the other is refused. *)
Definition parse (url : string) : Result string :=
  match PyStr.split1 "/"%char (substring 8 (String.length url - 8) url) with
  | netloc :: _ =>
      if xorb (PyStr.has_char "[" netloc) (PyStr.has_char "]" netloc)
      then Raise (ValueError "Invalid IPv6 URL")
      else Ok (url_path url)
  | [] => Ok (url_path url)
  end.

Definition write (p : string) (x : node) (root : node) : Result unit * node :=
  match Fs.put (Fs.components p) x root with
  | Some root' => (Ok tt, root')
  | None => (Raise (ExternalError p), root)
  end.

Definition checkpoints_acb : node :=
  Dir [("a.ckpt", File); ("c.ckpt", File); ("b.ckpt", File)].

Definition model_tree (checkpoints : node) : node :=
  Dir [("checkpoints", checkpoints)].

Definition externals : Externals :=
  {| home := "/home/user";
     urlparse_path := parse;
     urlretrieve_fs := fun _ filepath => write filepath File;
     zip_extractall_fs := fun _ directory =>
       write (OsPath.join directory ["demo"]) (model_tree checkpoints_acb);
     subprocess_fs := fun _ root => (Ok tt, root) |}.

Definition world_of (root : node) : World := mkWorld root [].

(** An empty cache directory. *)
Definition empty_cache : node := Dir [("cache", Dir [])].

(** A cache whose only content is a directory named like an archive. *)
Definition cache_with_directory_demo_tar : node :=
  Dir [("cache", Dir [("demo.tar", Dir [])])].

(** A cache that holds the model and the archive it came from. *)
Definition cached_with_archive : node :=
  Dir [("cache", Dir [("demo", model_tree checkpoints_acb);
                      ("demo.zip", File)])].

(** A checkpoint outside the cache. *)
Definition local_checkpoint : node :=
  Dir [("cache", Dir []); ("models", Dir [("my.ckpt", File)])].

(** A cache that holds the model already. *)
Definition cached (checkpoints : node) : node :=
  Dir [("cache", Dir [("demo", model_tree checkpoints)])].

(** A cache whose model directory holds no checkpoint. *)
Definition cached_without_checkpoint : node :=
  cached (Dir [("notes.txt", File)]).

Definition demo_url : string := "https://example.test/demo.zip".

(** The world after the transfer and extraction of [demo.zip] into the
    empty cache. *)
Definition downloaded : World :=
  Eval vm_compute in
    snd (transfer_and_extract externals demo_url "/cache/" "demo.zip"
           "/cache/demo.zip" None (world_of empty_cache)).

(** The world after the cleanup that follows. *)
Definition cleaned : World :=
  Eval vm_compute in snd (clean_cache "/cache/" "demo" downloaded).

(** The world after a cache hit. *)
Definition hit : World :=
  Eval vm_compute in
    snd (locate_or_download externals registry "/cache/" "demo"
           (world_of (cached checkpoints_acb))).

Definition hit_without_checkpoint : World :=
  Eval vm_compute in
    snd (locate_or_download externals registry "/cache/" "demo"
           (world_of cached_without_checkpoint)).

End Demo.

(** ** The progress hook (lines 45-69)

    [tqdm] is outside the repository: the bar is the total it was told and
    the increments it was given through [update], in order.  The closure
    that [_reporthook] returns owns the bar and the cell [last_b]; block
    counts and sizes are Python integers. *)

Module Progress.

Record Tqdm : Type := mkTqdm { total : option Z; updates : list Z }.

(** [t.update(k)] *)
Definition update (k : Z) (t : Tqdm) : Tqdm :=
  mkTqdm (total t) (updates t ++ [k]).

(** [t.total = tsize] *)
Definition set_total (tsize : Z) (t : Tqdm) : Tqdm :=
  mkTqdm (Some tsize) (updates t).

Record Hook : Type := mkHook { bar : Tqdm; last_b : Z }.

(** Lines 55 and 69: the hook as created, [last_b = [0]]. *)
Definition _reporthook (t : Tqdm) : Hook := mkHook t 0.

(** Lines 57-67: one call [inner(b, bsize, tsize)]. *)
Definition inner (b bsize : Z) (tsize : option Z) (h : Hook) : Hook :=
  let t := match tsize with
           | Some size => set_total size (bar h)
           | None => bar h
           end in
  mkHook (update ((b - last_b h) * bsize) t) b.

(** The arguments of one call of the hook. *)
Record Call : Type := mkCall { blocks : Z; block_size : Z; total_size : option Z }.

(** The hook after a sequence of calls. *)
Definition calls (cs : list Call) (h : Hook) : Hook :=
  fold_left (fun h c => inner (blocks c) (block_size c) (total_size c) h) cs h.

(** What the bar has been advanced by. *)
Definition advanced (t : Tqdm) : Z := fold_right Z.add 0%Z (updates t).

End Progress.

(** ** More statements *)

(** Lines 219-220: the model name after a cache hit. *)
Definition cache_hit_model (model : string) : string :=
  if PyStr.endswith model OsPath.sep then model else model ++ OsPath.sep.

(** Line 218. *)
Definition cache_hit_event (model : string) : Event :=
  EvLog (model ++ " is already in cache.").


(** Line 84 fails: no second part after the split. *)
Definition no_extension_error : exn := IndexError "list index out of range".

(** ** More of the concrete world *)

Module Scenes.
Import Demo.

(** The world after the preparation of a saving directory that the empty
    cache does not hold. *)
Definition prepared : World :=
  Eval vm_compute in
    snd (prepare_saving_directory externals (Some "/cache/models")
           (world_of empty_cache)).

(** The file system after the transfer of [modelnoext]. *)
Definition with_modelnoext : node :=
  Eval vm_compute in
    snd (urlretrieve_fs externals "https://example.test/modelnoext"
           "/cache/modelnoext" empty_cache).

(** Four calls of the hook, as [urlretrieve] makes them for a resource of
    20000 bytes read in blocks of 8192. *)
Definition four_calls : list Progress.Call :=
  [Progress.mkCall 0 8192 (Some 20000%Z);
   Progress.mkCall 1 8192 (Some 20000%Z);
   Progress.mkCall 2 8192 (Some 20000%Z);
   Progress.mkCall 3 8192 (Some 20000%Z)].

Definition fresh_bar : Progress.Tqdm := Progress.mkTqdm None [].

End Scenes.

(** * Properties *)

(** ** The file system model *)

Module FsFacts.
Import Fs.

Lemma find_entry_filter_same (c : string) (es : list (string * node)) :
  find_entry c (filter (fun e => negb (String.eqb (fst e) c)) es) = None.
Proof.
  induction es as [|[n x] es IH]; simpl; [reflexivity|].
  destruct (String.eqb n c) eqn:E; simpl; [exact IH|].
  rewrite E. exact IH.
Qed.

Lemma find_entry_filter_other (c c' : string) (es : list (string * node)) :
  String.eqb c c' = false ->
  find_entry c' (filter (fun e => negb (String.eqb (fst e) c)) es)
  = find_entry c' es.
Proof.
  intros Hne. induction es as [|[n x] es IH]; simpl; [reflexivity|].
  destruct (String.eqb n c) eqn:E; simpl.
  - apply String.eqb_eq in E. subst n. rewrite Hne. exact IH.
  - rewrite IH. reflexivity.
Qed.

Lemma find_entry_map_same (c : string) (g : node -> node)
      (es : list (string * node)) :
  find_entry c (map (fun e => if String.eqb (fst e) c
                              then (fst e, g (snd e)) else e) es)
  = option_map g (find_entry c es).
Proof.
  induction es as [|[n x] es IH]; simpl; [reflexivity|].
  destruct (String.eqb n c) eqn:E; simpl; rewrite E; [reflexivity|exact IH].
Qed.

Lemma find_entry_map_other (c c' : string) (g : node -> node)
      (es : list (string * node)) :
  String.eqb c c' = false ->
  find_entry c' (map (fun e => if String.eqb (fst e) c
                               then (fst e, g (snd e)) else e) es)
  = find_entry c' es.
Proof.
  intros Hne. induction es as [|[n x] es IH]; simpl; [reflexivity|].
  destruct (String.eqb n c) eqn:E; simpl.
  - apply String.eqb_eq in E. subst n. rewrite Hne. exact IH.
  - rewrite IH. reflexivity.
Qed.

Lemma remove_at_deeper (c c2 : string) (cs2 : list string)
      (es : list (string * node)) :
  remove_at (c :: c2 :: cs2) (Dir es)
  = Dir (map (fun e => if String.eqb (fst e) c
                       then (fst e, remove_at (c2 :: cs2) (snd e))
                       else e) es).
Proof. reflexivity. Qed.

(** The removed entry is gone. *)
Lemma walk_remove_at_same (cs : list string) :
  forall n, cs <> [] -> walk cs n = Some File ->
            walk cs (remove_at cs n) = None.
Proof.
  induction cs as [|c cs IH]; intros n Hne Hw; [congruence|].
  destruct n as [|es]; simpl in Hw; [discriminate|].
  destruct (find_entry c es) as [n'|] eqn:Hf; [|discriminate].
  destruct cs as [|c2 cs2].
  - simpl. rewrite find_entry_filter_same. reflexivity.
  - rewrite remove_at_deeper. cbn [walk].
    rewrite (find_entry_map_same c (remove_at (c2 :: cs2))), Hf.
    cbn [option_map]. apply IH; [discriminate|exact Hw].
Qed.

(** A removal creates nothing and turns nothing into a directory. *)
Lemma walk_remove_at_inv (cs : list string) :
  forall cs' n x,
    walk cs' (remove_at cs n) = Some x ->
    exists y, walk cs' n = Some y /\ is_dir x = is_dir y.
Proof.
  induction cs as [|c cs IH]; intros cs' n x Hw.
  - exists x. split; [exact Hw|reflexivity].
  - destruct n as [|es].
    + exists x. split; [exact Hw|reflexivity].
    + destruct cs' as [|c' cs''].
      * destruct cs; simpl in Hw; inversion Hw; subst;
          exists (Dir es); split; reflexivity.
      * destruct (String.eqb c c') eqn:E.
        -- apply String.eqb_eq in E. subst c'.
           destruct cs as [|c2 cs2].
           ++ simpl in Hw. rewrite find_entry_filter_same in Hw. discriminate.
           ++ rewrite remove_at_deeper in Hw. cbn [walk] in Hw.
              rewrite (find_entry_map_same c (remove_at (c2 :: cs2))) in Hw.
              cbn [walk]. destruct (find_entry c es) as [n'|]; [|discriminate].
              cbn [option_map] in Hw. exact (IH _ _ _ Hw).
        -- destruct cs as [|c2 cs2].
           ++ simpl in Hw. rewrite (find_entry_filter_other _ _ _ E) in Hw.
              exists x. split; [exact Hw|reflexivity].
           ++ rewrite remove_at_deeper in Hw. cbn [walk] in Hw.
              rewrite (find_entry_map_other c c' (remove_at (c2 :: cs2)) es E) in Hw.
              exists x. split; [exact Hw|reflexivity].
Qed.

Lemma split_not_nil (sep : ascii) (s : string) : PyStr.split sep s <> [].
Proof.
  destruct s as [|a r]; simpl; [discriminate|].
  destruct (Ascii.eqb a sep); [discriminate|].
  destruct (PyStr.split sep r); discriminate.
Qed.

Lemma last_in (l : list string) (d : string) : l <> [] -> In (last l d) l.
Proof.
  induction l as [|x l IH]; intros H; [congruence|].
  destruct l as [|y l]; [left; reflexivity|].
  right. apply IH. discriminate.
Qed.

(** A path that may name a file has a component to walk. *)
Lemma components_not_nil (p : string) :
  names_directory p = false -> components p <> [].
Proof.
  unfold names_directory, components. intros H Hnil.
  assert (Hin : In (last (PyStr.split OsPath.sep_char p) "")
                   (filter (fun c => negb (skipped c))
                           (PyStr.split OsPath.sep_char p))).
  { apply filter_In. split; [apply last_in, split_not_nil|].
    rewrite H. reflexivity. }
  rewrite Hnil in Hin. exact Hin.
Qed.

Lemma stat_file (root : node) (p : string) :
  stat root p = Some File ->
  walk (components p) root = Some File /\ names_directory p = false.
Proof.
  unfold stat. destruct (String.eqb p ""); [discriminate|].
  destruct (walk (components p) root) as [[|es]|]; try discriminate.
  destruct (names_directory p); [discriminate|]. split; reflexivity.
Qed.

Lemma stat_remove_same (root : node) (p : string) :
  stat root p = Some File ->
  stat (remove_at (components p) root) p = None.
Proof.
  intros H. destruct (stat_file _ _ H) as [Hw Hn].
  unfold stat. destruct (String.eqb p ""); [reflexivity|].
  rewrite (walk_remove_at_same _ _ (components_not_nil _ Hn) Hw).
  reflexivity.
Qed.

Lemma stat_remove_inv (root : node) (cs : list string) (q : string) (x : node) :
  stat (remove_at cs root) q = Some x ->
  exists y, stat root q = Some y /\ is_dir x = is_dir y.
Proof.
  unfold stat. destruct (String.eqb q ""); [discriminate|].
  destruct (walk (components q) (remove_at cs root)) as [x0|] eqn:Hw;
    [|discriminate].
  destruct (walk_remove_at_inv _ _ _ _ Hw) as [y0 [Hy Hk]].
  rewrite Hy. intros H.
  destruct x0 as [|es0]; destruct y0 as [|es1]; try discriminate Hk.
  - destruct (names_directory q); [discriminate|].
    inversion H; subst. exists File. split; reflexivity.
  - inversion H; subst. exists (Dir es1). split; reflexivity.
Qed.

Lemma exists_remove_inv (root : node) (cs : list string) (q : string) :
  exists_ root q = false -> exists_ (remove_at cs root) q = false.
Proof.
  unfold exists_. intros H.
  destruct (stat (remove_at cs root) q) as [x|] eqn:E; [|reflexivity].
  destruct (stat_remove_inv _ _ _ _ E) as [y [Hy _]].
  rewrite Hy in H. discriminate.
Qed.

Lemma isdir_remove_inv (root : node) (cs : list string) (q : string) :
  isdir root q = false -> isdir (remove_at cs root) q = false.
Proof.
  unfold isdir. intros H.
  destruct (stat (remove_at cs root) q) as [[|es]|] eqn:E; try reflexivity.
  destruct (stat_remove_inv _ _ _ _ E) as [y [Hy Hk]].
  rewrite Hy in H. destruct y; [discriminate Hk|discriminate H].
Qed.

Lemma isdir_not_isfile (root : node) (p : string) :
  isdir root p = true -> isfile root p = false.
Proof.
  unfold isdir, isfile. destruct (stat root p) as [[|es]|]; congruence.
Qed.

End FsFacts.

(** ** Strings and paths *)

Module StrFacts.
Import PyStr OsPath.

Lemma append_assoc (a b c : string) : (a ++ b) ++ c = a ++ (b ++ c).
Proof. induction a as [|x a IH]; simpl; [reflexivity|]. rewrite IH. reflexivity. Qed.

Lemma has_char_app (c : ascii) (a b : string) :
  has_char c (a ++ b) = has_char c a || has_char c b.
Proof.
  induction a as [|x a IH]; simpl; [reflexivity|].
  rewrite IH. apply orb_assoc.
Qed.

Lemma endswith_cons (x : ascii) (a suf : string) :
  endswith (String x a) suf = String.eqb (String x a) suf || endswith a suf.
Proof. reflexivity. Qed.

Lemma endswith_sep_has_char (a : string) :
  endswith a sep = true -> has_char sep_char a = true.
Proof.
  induction a as [|x a IH]; [discriminate|].
  rewrite endswith_cons. cbn [has_char].
  intros H. apply orb_true_iff in H. destruct H as [H|H].
  - apply String.eqb_eq in H. inversion H. reflexivity.
  - rewrite (IH H). apply orb_true_r.
Qed.

Lemma endswith_app_sep (a : string) : endswith (a ++ sep) sep = true.
Proof.
  induction a as [|x a IH]; [reflexivity|].
  cbn [append]. rewrite endswith_cons, IH. apply orb_true_r.
Qed.

Lemma basename_no_sep (s : string) :
  has_char sep_char s = false -> basename s = s.
Proof.
  destruct s as [|x s]; simpl; [reflexivity|].
  intros H. apply orb_false_iff in H. destruct H as [Hx Hs].
  rewrite Hs, Hx. reflexivity.
Qed.

Lemma basename_after_sep (a name : string) :
  has_char sep_char name = false -> endswith a sep = true ->
  basename (a ++ name) = name.
Proof.
  intros Hn. induction a as [|x a IH]; [discriminate|].
  intros H. cbn [append basename].
  destruct (endswith a sep) eqn:Ea.
  - rewrite has_char_app, (endswith_sep_has_char _ Ea). simpl. apply IH.
    reflexivity.
  - rewrite endswith_cons, Ea, orb_false_r in H.
    apply String.eqb_eq in H. inversion H; subst.
    simpl. rewrite Hn. reflexivity.
Qed.

Lemma startswith_sep_has_char (s : string) :
  startswith s sep = true -> has_char sep_char s = true.
Proof.
  destruct s as [|x s]; [discriminate|].
  cbn [startswith sep has_char sep_char]. intros H.
  apply andb_true_iff in H. destruct H as [H _].
  apply Ascii.eqb_eq in H. subst x. reflexivity.
Qed.

(** The file name of [directory/filename] is [filename]. *)
Lemma basename_join (directory filename : string) :
  has_char sep_char filename = false ->
  basename (join directory [filename]) = filename.
Proof.
  intros Hn. cbn [join].
  destruct (startswith filename sep) eqn:Es.
  - rewrite (startswith_sep_has_char _ Es) in Hn. discriminate.
  - destruct (String.eqb directory "") eqn:Ed.
    + apply String.eqb_eq in Ed. subst. simpl. apply basename_no_sep, Hn.
    + simpl orb. destruct (endswith directory sep) eqn:Ee.
      * apply basename_after_sep; assumption.
      * rewrite <- append_assoc.
        apply basename_after_sep; [assumption|apply endswith_app_sep].
Qed.

Lemma split1_no_sep (c : ascii) (s : string) :
  has_char c s = false -> split1 c s = [s].
Proof.
  induction s as [|x s IH]; simpl; [reflexivity|].
  intros H. apply orb_false_iff in H. destruct H as [Hx Hs].
  rewrite Hx, (IH Hs). reflexivity.
Qed.

Lemma split1_first (c : ascii) (pre post : string) :
  has_char c pre = false ->
  split1 c (pre ++ String c post) = [pre; post].
Proof.
  induction pre as [|x pre IH]; simpl.
  - intros _. rewrite Ascii.eqb_refl. reflexivity.
  - intros H. apply orb_false_iff in H. destruct H as [Hx Hs].
    rewrite Hx, (IH Hs). reflexivity.
Qed.

End StrFacts.

(** ** Sorting *)

Module SelectionFacts.
Import SpecSelection.

Lemma sorted_ascending (l : list string) : ascending l = true -> sorted l = l.
Proof.
  induction l as [|x l IH]; [reflexivity|].
  intros H. cbn [sorted]. destruct l as [|y l]; [reflexivity|].
  cbn [ascending] in H. apply andb_true_iff in H. destruct H as [Hxy Hl].
  rewrite (IH Hl). cbn [insert]. rewrite Hxy. reflexivity.
Qed.

End SelectionFacts.

(** ** The monad *)

Lemma bind_ok {A B} (m : M A) (k : A -> M B) (w w' : World) (a : A) :
  m w = (Ok a, w') -> bind m k w = k a w'.
Proof. intros H. unfold bind. rewrite H. reflexivity. Qed.

Lemma bind_raise {A B} (m : M A) (k : A -> M B) (w w' : World) (e : exn) :
  m w = (Raise e, w') -> bind m k w = (Raise e, w').
Proof. intros H. unfold bind. rewrite H. reflexivity. Qed.

Lemma grows_ret {A} (a : A) : grows (ret a).
Proof. intros w. exists []. simpl. rewrite app_nil_r. reflexivity. Qed.

Lemma grows_raise {A} (e : exn) : grows (@raise A e).
Proof. intros w. exists []. simpl. rewrite app_nil_r. reflexivity. Qed.

Lemma grows_lift {A} (r : Result A) : grows (lift r).
Proof. intros w. exists []. simpl. rewrite app_nil_r. reflexivity. Qed.

Lemma grows_emit (ev : Event) : grows (emit ev).
Proof. intros w. exists [ev]. reflexivity. Qed.

Lemma grows_external (f : node -> Result unit * node) : grows (external f).
Proof.
  intros w. exists []. unfold external. destruct (f (fs w)) as [r root].
  simpl. rewrite app_nil_r. reflexivity.
Qed.

Lemma grows_bind {A B} (m : M A) (k : A -> M B) :
  grows m -> (forall a, grows (k a)) -> grows (bind m k).
Proof.
  intros Hm Hk w. unfold bind. destruct (Hm w) as [tr1 H1].
  destruct (m w) as [[a|e] w1]; simpl in H1.
  - destruct (Hk a w1) as [tr2 H2]. exists (tr1 ++ tr2)%list.
    rewrite H2, H1. symmetry. apply app_assoc.
  - exists tr1. exact H1.
Qed.

Create HintDb grows.
#[export] Hint Resolve grows_ret grows_raise grows_lift grows_emit grows_external
  grows_bind : grows.

Lemma grows_maybe_extract (X : Externals) (f d : string) (e : option string) :
  grows (_maybe_extract X f d e).
Proof.
  unfold _maybe_extract, logger_info, ZipFile_extractall, subprocess_call.
  apply grows_bind; [auto with grows|]. intros _.
  apply grows_bind; [destruct e; auto with grows|]. intros ext.
  apply grows_bind; [|auto with grows].
  destruct (PyStr.contains "zip" ext); [auto with grows|].
  destruct (PyStr.contains "tar.gz" ext || PyStr.contains "tgz" ext);
    [auto with grows|].
  destruct (PyStr.contains "tar" ext); auto with grows.
Qed.

(** ** The download *)

Section Download.

Variable X : Externals.

Lemma markers_all_files (directory : string) (check_files : list string)
      (w : World) :
  (forall f, In f check_files ->
             Fs.isfile (fs w) (OsPath.join directory [f]) = true) ->
  forallb (Fs.isfile (fs w)) (marker_paths directory check_files) = true.
Proof.
  intros H. apply forallb_forall. intros p Hp.
  apply in_map_iff in Hp. destruct Hp as [f [Hf Hin]]. subst p.
  apply H, Hin.
Qed.

Lemma markers_one_missing (directory : string) (check_files : list string)
      (w : World) (f : string) :
  In f check_files ->
  Fs.isfile (fs w) (OsPath.join directory [f]) = false ->
  forallb (Fs.isfile (fs w)) (marker_paths directory check_files) = false.
Proof.
  intros Hin Hf.
  destruct (forallb (Fs.isfile (fs w)) (marker_paths directory check_files))
    eqn:E; [|reflexivity].
  rewrite forallb_forall in E.
  rewrite <- Hf. symmetry. apply E. unfold marker_paths.
  apply (in_map (fun f => OsPath.join directory [f])), Hin.
Qed.

(** With a file name (given, or derived from a URL that parses) the
    function starts with the cache check. *)
Lemma download_with_name (url directory : string)
      (filename extension : option string) (check_files : list string)
      (name : string) (w : World) :
  chosen_filename X url filename = Ok name ->
  download_file_maybe_extract X url directory filename extension check_files w
  = (cached <- _check_download (marker_paths directory check_files) ;;
     if Nat.ltb 0 (length (marker_paths directory check_files)) && cached
     then ret (OsPath.join directory [name])
     else
       transfer_and_extract X url directory name
         (OsPath.join directory [name]) extension ;;
       found <- _check_download (marker_paths directory check_files) ;;
       if negb found then raise verification_error
       else ret (OsPath.join directory [name])) w.
Proof.
  unfold chosen_filename. intros Hname.
  unfold download_file_maybe_extract. unfold bind at 1. unfold lift.
  rewrite Hname. reflexivity.
Qed.

(** Line 159 comes first: without a file name, a URL that [urlparse]
    refuses makes the call fail with that error, whatever the markers,
    and nothing has been done. *)
Lemma download_unparsed_url (url directory : string)
      (extension : option string) (check_files : list string)
      (e : exn) (w : World) :
  _get_filename_from_url X url = Raise e ->
  download_file_maybe_extract X url directory None extension check_files w
  = (Raise e, w).
Proof.
  intros H. unfold download_file_maybe_extract.
  apply bind_raise. unfold lift. rewrite H. reflexivity.
Qed.

(** Without a cache hit the function is the transfer and extraction
    followed by the verification of the markers. *)
Lemma download_slow_path (url directory : string)
      (filename extension : option string) (check_files : list string)
      (name : string) (w : World) :
  chosen_filename X url filename = Ok name ->
  short_circuits directory check_files w = false ->
  download_file_maybe_extract X url directory filename extension check_files w
  = (transfer_and_extract X url directory name
       (OsPath.join directory [name]) extension ;;
     found <- _check_download (marker_paths directory check_files) ;;
     if negb found then raise verification_error
     else ret (OsPath.join directory [name])) w.
Proof.
  intros Hname. unfold short_circuits. intros H.
  rewrite (download_with_name _ _ _ _ _ _ _ Hname).
  unfold bind at 1. unfold _check_download at 1.
  unfold marker_paths at 1. rewrite length_map, H. reflexivity.
Qed.

(** C3: with a non-empty list of marker files that all exist already,
    [download_file_maybe_extract] returns [directory/filename] at once
    ([filename] being the given name, or the one derived from a URL that
    [urlparse] accepts): the world it leaves is the world it found, so
    nothing was transferred, created or extracted, and no error is
    raised. *)
Theorem cache_short_circuit (url directory : string)
        (filename extension : option string) (check_files : list string)
        (name : string) (w : World) :
  chosen_filename X url filename = Ok name ->
  check_files <> [] ->
  (forall f, In f check_files ->
             Fs.isfile (fs w) (OsPath.join directory [f]) = true) ->
  download_file_maybe_extract X url directory filename extension check_files w
  = (Ok (OsPath.join directory [name]), w).
Proof.
  intros Hname Hne Hall.
  rewrite (download_with_name _ _ _ _ _ _ _ Hname).
  unfold bind, _check_download.
  rewrite (markers_all_files _ _ _ Hall).
  unfold marker_paths. rewrite length_map.
  destruct check_files; [congruence|reflexivity].
Qed.

(** Past the transfer and the extraction, the markers decide. *)
Lemma verification_outcome (url directory : string)
      (filename extension : option string) (check_files : list string)
      (name : string) (w w' : World) :
  chosen_filename X url filename = Ok name ->
  short_circuits directory check_files w = false ->
  transfer_and_extract X url directory name
    (OsPath.join directory [name]) extension w
  = (Ok tt, w') ->
  download_file_maybe_extract X url directory filename extension check_files w
  = if forallb (Fs.isfile (fs w')) (marker_paths directory check_files)
    then (Ok (OsPath.join directory [name]), w')
    else (Raise verification_error, w').
Proof.
  intros Hname Hslow Ht.
  rewrite (download_slow_path _ _ _ _ _ _ _ Hname Hslow).
  rewrite (bind_ok _ _ _ _ _ Ht). unfold bind, _check_download.
  destruct (forallb (Fs.isfile (fs w')) (marker_paths directory check_files));
    reflexivity.
Qed.

(** C6: when the transfer and the extraction have been performed, a
    marker file that is still missing makes the call raise the
    verification error instead of returning a path; with every marker
    present, or none declared, the call returns [filepath]. *)
Theorem verification_after_extraction (url directory : string)
        (filename extension : option string) (check_files : list string)
        (name : string) (w w' : World) :
  chosen_filename X url filename = Ok name ->
  short_circuits directory check_files w = false ->
  transfer_and_extract X url directory name
    (OsPath.join directory [name]) extension w
  = (Ok tt, w') ->
  ((exists f, In f check_files /\
              Fs.isfile (fs w') (OsPath.join directory [f]) = false) ->
   download_file_maybe_extract X url directory filename extension check_files w
   = (Raise verification_error, w'))
  /\
  ((forall f, In f check_files ->
              Fs.isfile (fs w') (OsPath.join directory [f]) = true) ->
   download_file_maybe_extract X url directory filename extension check_files w
   = (Ok (OsPath.join directory [name]), w')).
Proof.
  intros Hname Hslow Ht.
  rewrite (verification_outcome _ _ _ _ _ _ _ _ Hname Hslow Ht).
  split.
  - intros [f [Hin Hf]]. rewrite (markers_one_missing _ _ _ _ Hin Hf).
    reflexivity.
  - intros Hall. rewrite (markers_all_files _ _ _ Hall). reflexivity.
Qed.

Lemma grows_check_download (paths : list string) :
  grows (_check_download paths).
Proof. intros w. exists []. simpl. rewrite app_nil_r. reflexivity. Qed.

(** C10: a marker path that exists but is a directory does not count:
    [_check_download] answers [False], so the call (with a file name
    given, or derived from a URL that [urlparse] accepts) does not stop
    at the cache check but goes on to the transfer once the target
    directory is there, and a marker that is still a directory afterwards
    fails the verification. *)
Theorem directory_marker_is_not_a_file (url directory : string)
        (filename extension : option string) (check_files : list string)
        (name f : string) (w : World) :
  chosen_filename X url filename = Ok name ->
  In f check_files ->
  Fs.isdir (fs w) (OsPath.join directory [f]) = true ->
  _check_download (marker_paths directory check_files) w = (Ok false, w)
  /\
  (forall w1,
      ensure_directory directory w = (Ok tt, w1) ->
      exists r w' tr,
        download_file_maybe_extract X url directory filename extension
          check_files w = (r, w')
        /\ trace w'
           = (trace w1
              ++ EvLog ("Downloading " ++ name)
              :: EvUrlretrieve url (OsPath.join directory [name])
              :: tr)%list)
  /\
  (forall w',
      transfer_and_extract X url directory name
        (OsPath.join directory [name]) extension w
      = (Ok tt, w') ->
      Fs.isdir (fs w') (OsPath.join directory [f]) = true ->
      download_file_maybe_extract X url directory filename extension
        check_files w = (Raise verification_error, w')).
Proof.
  intros Hname Hin Hdir.
  pose proof (markers_one_missing directory check_files w f Hin
                (FsFacts.isdir_not_isfile _ _ Hdir)) as Hmiss.
  assert (Hslow : short_circuits directory check_files w = false).
  { unfold short_circuits. rewrite Hmiss. apply andb_false_r. }
  split; [|split].
  - unfold _check_download. rewrite Hmiss. reflexivity.
  - intros w1 Hens. rewrite (download_slow_path _ _ _ _ _ _ _ Hname Hslow).
    set (path := OsPath.join directory [name]).
    set (w2 := mkWorld (fs w1)
                 ((trace w1 ++ [EvLog ("Downloading " ++ name)])
                  ++ [EvUrlretrieve url path])%list).
    set (rest := ((external (urlretrieve_fs X url path) ;;
                   _maybe_extract X path directory extension) ;;
                  found <- _check_download (marker_paths directory check_files) ;;
                  if negb found then raise verification_error else ret path)).
    assert (Hgrows : grows rest).
    { unfold rest. apply grows_bind.
      - apply grows_bind; [apply grows_external|].
        intros _. apply grows_maybe_extract.
      - intros _. apply grows_bind; [apply grows_check_download|].
        intros found. destruct found; simpl; auto with grows. }
    destruct (Hgrows w2) as [tr Htr].
    exists (fst (rest w2)), (snd (rest w2)), tr. split.
    + rewrite <- surjective_pairing. unfold rest, w2.
      unfold transfer_and_extract, urlretrieve, logger_info, emit, bind.
      rewrite Hens. reflexivity.
    + rewrite Htr. unfold w2. cbn [trace].
      rewrite <- !app_assoc. reflexivity.
  - intros w' Ht Hdir'.
    rewrite (verification_outcome _ _ _ _ _ _ _ _ Hname Hslow Ht).
    rewrite (markers_one_missing _ _ _ _ Hin
               (FsFacts.isdir_not_isfile _ _ Hdir')).
    reflexivity.
Qed.

End Download.

(** ** The extraction *)

Section Extraction.

Variable X : Externals.

(** C7: without an [extension] argument the extension is what follows
    the first ["."] of the file name: it is found when the name has a
    ["."], and the derivation fails (the index is out of range) when it
    has none. *)
Theorem derive_extension_after_first_dot (directory filename : string) :
  PyStr.has_char "/" filename = false ->
  (forall pre post,
      filename = pre ++ "." ++ post ->
      PyStr.has_char "." pre = false ->
      derive_extension (OsPath.join directory [filename]) = Ok post)
  /\
  (PyStr.has_char "." filename = false ->
   derive_extension (OsPath.join directory [filename])
   = Raise (IndexError "list index out of range")).
Proof.
  intros Hsep. unfold derive_extension.
  rewrite (StrFacts.basename_join _ _ Hsep). split.
  - intros pre post Hname Hpre. subst filename.
    change (pre ++ "." ++ post) with (pre ++ String "." post).
    rewrite (StrFacts.split1_first _ _ _ Hpre). reflexivity.
  - intros Hdot. rewrite (StrFacts.split1_no_sep _ _ Hdot). reflexivity.
Qed.

(** C8: the extension, given or derived, is tested for the substrings
    ["zip"], then ["tar.gz"] or ["tgz"], then ["tar"], and the first that
    occurs decides: an extension that contains ["zip"] is unzipped whatever
    else it contains, and one that contains none of them leaves the file
    system as it is. *)
Theorem extraction_dispatch_order (f directory : string)
        (extension : option string) (ext : string) (w : World) :
  extension_used f extension = Ok ext ->
  (PyStr.contains "zip" ext = true ->
   _maybe_extract X f directory extension w
   = extraction_outcome f (EvZipExtractall f directory)
       (zip_extractall_fs X f directory (fs w)) w)
  /\
  (PyStr.contains "zip" ext = false ->
   PyStr.contains "tar.gz" ext || PyStr.contains "tgz" ext = true ->
   _maybe_extract X f directory extension w
   = extraction_outcome f (EvSubprocess ["tar"; "-C"; directory; "-zxvf"; f])
       (subprocess_fs X ["tar"; "-C"; directory; "-zxvf"; f] (fs w)) w)
  /\
  (PyStr.contains "zip" ext = false ->
   PyStr.contains "tar.gz" ext || PyStr.contains "tgz" ext = false ->
   PyStr.contains "tar" ext = true ->
   _maybe_extract X f directory extension w
   = extraction_outcome f (EvSubprocess ["tar"; "-C"; directory; "-xvf"; f])
       (subprocess_fs X ["tar"; "-C"; directory; "-xvf"; f] (fs w)) w)
  /\
  (PyStr.contains "zip" ext = false ->
   PyStr.contains "tar.gz" ext || PyStr.contains "tgz" ext = false ->
   PyStr.contains "tar" ext = false ->
   _maybe_extract X f directory extension w
   = (Ok tt, mkWorld (fs w)
               (trace w ++ [EvLog ("Extracting " ++ f);
                            EvLog ("Extracted " ++ f)])%list)).
Proof.
  intros Hext.
  assert (Hused : forall w0 : World,
             match extension with
             | None => lift (derive_extension f)
             | Some e => ret e
             end w0 = (Ok ext, w0)).
  { intros w0. unfold extension_used in Hext.
    destruct extension as [e|]; unfold lift, ret; rewrite Hext; reflexivity. }
  unfold _maybe_extract, extraction_outcome, ZipFile_extractall,
    subprocess_call, logger_info, emit, external, bind.
  rewrite Hused. unfold ret.
  repeat split.
  - intros Hz. rewrite Hz. simpl.
    destruct (zip_extractall_fs X f directory (fs w)) as [[[]|e] root];
      cbn [fs trace]; rewrite <- ?app_assoc; reflexivity.
  - intros Hz Hg. rewrite Hz, Hg. simpl.
    destruct (subprocess_fs X _ (fs w)) as [[[]|e] root];
      cbn [fs trace]; rewrite <- ?app_assoc; reflexivity.
  - intros Hz Hg Ht. rewrite Hz, Hg, Ht. simpl.
    destruct (subprocess_fs X _ (fs w)) as [[[]|e] root];
      cbn [fs trace]; rewrite <- ?app_assoc; reflexivity.
  - intros Hz Hg Ht. rewrite Hz, Hg, Ht. cbn [fs trace].
    rewrite <- ?app_assoc. reflexivity.
Qed.

End Extraction.

(** ** The cleanup *)

Lemma remove_if_exists_ok (p : string) (w w' : World) :
  remove_if_exists p w = (Ok tt, w') ->
  Fs.exists_ (fs w') p = false
  /\ (forall q, Fs.exists_ (fs w) q = false -> Fs.exists_ (fs w') q = false)
  /\ (forall q, Fs.isdir (fs w) q = false -> Fs.isdir (fs w') q = false).
Proof.
  unfold remove_if_exists, bind, os_path_exists, os_remove, ret.
  destruct (Fs.exists_ (fs w) p) eqn:E.
  - destruct (Fs.stat (fs w) p) as [[|es]|] eqn:Es; try discriminate.
    intros H. inversion H; subst; clear H. cbn [fs]. repeat split.
    + unfold Fs.exists_. rewrite (FsFacts.stat_remove_same _ _ Es). reflexivity.
    + intros q. apply FsFacts.exists_remove_inv.
    + intros q. apply FsFacts.isdir_remove_inv.
  - intros H. inversion H; subst. auto.
Qed.

Lemma remove_if_exists_total (p : string) (w : World) :
  Fs.isdir (fs w) p = false -> exists w', remove_if_exists p w = (Ok tt, w').
Proof.
  unfold remove_if_exists, bind, os_path_exists, os_remove, ret,
    Fs.isdir, Fs.exists_. cbv beta iota.
  destruct (Fs.stat (fs w) p) as [[|es]|] eqn:Es; intros H; try discriminate;
    cbv beta iota; rewrite ?Es; eexists; reflexivity.
Qed.

Lemma clean_cache_ok (saving_directory model : string) (w w' : World) :
  clean_cache saving_directory model w = (Ok tt, w') ->
  forall p, In p (archive_paths saving_directory model) ->
            Fs.exists_ (fs w') p = false.
Proof.
  unfold clean_cache, bind.
  destruct (remove_if_exists _ w) as [[[]|e1] wa] eqn:E1; [|discriminate].
  destruct (remove_if_exists _ wa) as [[[]|e2] wb] eqn:E2; [|discriminate].
  intros E3 p Hp.
  destruct (remove_if_exists_ok _ _ _ E1) as [Ha [Hka _]].
  destruct (remove_if_exists_ok _ _ _ E2) as [Hb [Hkb _]].
  destruct (remove_if_exists_ok _ _ _ E3) as [Hc [Hkc _]].
  destruct Hp as [Hp|[Hp|[Hp|[]]]]; subst p; auto.
Qed.

Lemma clean_cache_total (saving_directory model : string) (w : World) :
  (forall p, In p (archive_paths saving_directory model) ->
             Fs.isdir (fs w) p = false) ->
  exists w', clean_cache saving_directory model w = (Ok tt, w').
Proof.
  intros H. unfold clean_cache, bind.
  destruct (remove_if_exists_total _ w (H _ (or_introl eq_refl))) as [wa Ea].
  rewrite Ea. destruct (remove_if_exists_ok _ _ _ Ea) as [_ [_ Hda]].
  destruct (remove_if_exists_total _ wa
              (Hda _ (H _ (or_intror (or_introl eq_refl))))) as [wb Eb].
  rewrite Eb. destruct (remove_if_exists_ok _ _ _ Eb) as [_ [_ Hdb]].
  apply remove_if_exists_total, Hdb, Hda, H. simpl. auto.
Qed.

(** ** The resolution of a model *)

Lemma last_cons (x : string) (l : list string) (d : string) :
  last (x :: l) d = last l x.
Proof.
  revert x d. induction l as [|y l IH]; intros x d; [reflexivity|].
  change (last (x :: y :: l) d) with (last (y :: l) d).
  rewrite !IH. reflexivity.
Qed.

Lemma last_item_some (l : list string) (d : string) :
  l <> [] -> last_item l = Ok (last l d).
Proof.
  destruct l as [|x l]; [congruence|]. intros _.
  rewrite last_cons. reflexivity.
Qed.

Section Model.

Variable X : Externals.
Variable available_metrics : list (string * string).

Lemma download_model_at_checkpoint_step (model : string)
      (saving_directory_arg : option string) (w : World)
      (saving_directory model' : string) (w3 : World) :
  reaches_checkpoint_step X available_metrics model saving_directory_arg w
    saving_directory model' w3 ->
  download_model X available_metrics model saving_directory_arg w
  = select_checkpoint saving_directory model' w3.
Proof.
  intros [w1 [w2 [H1 [H2 H3]]]]. unfold download_model.
  rewrite (bind_ok _ _ _ _ _ H1), (bind_ok _ _ _ _ _ H2),
    (bind_ok _ _ _ _ _ H3).
  reflexivity.
Qed.

Lemma select_checkpoint_listed (saving_directory model : string)
      (w : World) (files : list string) :
  os_listdir (checkpoints_folder saving_directory model) w = (Ok files, w) ->
  select_checkpoint saving_directory model w
  = match last_item (matching_checkpoints files) with
    | Ok checkpoint =>
        (Ok (OsPath.join (checkpoints_folder saving_directory model)
               [checkpoint]), w)
    | Raise e => (Raise e, w)
    end.
Proof.
  intros H. unfold select_checkpoint. rewrite (bind_ok _ _ _ _ _ H).
  unfold bind, lift, ret. fold (matching_checkpoints files).
  destruct (last_item (matching_checkpoints files)); reflexivity.
Qed.

(** C1 (as amended): with at least one entry of the checkpoints directory
    ending in [".ckpt"], [download_model] returns the full path of the
    last such entry in the order in which [os.listdir] enumerates the
    directory; that is the lexicographically maximal one when the
    matching entries are enumerated in ascending order. *)
Theorem checkpoint_is_last_listed (model : string)
        (saving_directory_arg : option string) (w : World)
        (saving_directory model' : string) (w3 : World)
        (files : list string) :
  reaches_checkpoint_step X available_metrics model saving_directory_arg w
    saving_directory model' w3 ->
  os_listdir (checkpoints_folder saving_directory model') w3 = (Ok files, w3) ->
  matching_checkpoints files <> [] ->
  download_model X available_metrics model saving_directory_arg w
  = (Ok (OsPath.join (checkpoints_folder saving_directory model')
           [last (matching_checkpoints files) ""]), w3)
  /\
  (SpecSelection.ascending (matching_checkpoints files) = true ->
   download_model X available_metrics model saving_directory_arg w
   = (SpecSelection.spec_checkpoint_path
        (checkpoints_folder saving_directory model') files, w3)).
Proof.
  intros Hreach Hls Hne.
  rewrite (download_model_at_checkpoint_step _ _ _ _ _ _ Hreach).
  rewrite (select_checkpoint_listed _ _ _ _ Hls).
  rewrite (last_item_some _ "" Hne). split; [reflexivity|].
  intros Hasc. unfold SpecSelection.spec_checkpoint_path.
  fold (matching_checkpoints files).
  rewrite (SelectionFacts.sorted_ascending _ Hasc).
  rewrite (last_item_some _ "" Hne). reflexivity.
Qed.

(** The value that [os.path.join] returns is a [str]: the call of its
    [exists] method fails. *)
Lemma get_cache_folder_raises (w : World) :
  get_cache_folder X w
  = (Raise (AttributeError "'str' object has no attribute 'exists'"), w).
Proof.
  unfold get_cache_folder, os_path_join_obj.
  apply bind_raise. reflexivity.
Qed.

(** C2 (the code at the failing input): without a saving directory,
    [download_model] raises [AttributeError] while it computes the default
    one, for every model and in every world, and leaves the world as it
    found it. *)
Theorem default_directory_raises (model : string) (w : World) :
  download_model X available_metrics model None w
  = (Raise (AttributeError "'str' object has no attribute 'exists'"), w).
Proof.
  unfold download_model, prepare_saving_directory.
  apply bind_raise. apply bind_raise.
  apply get_cache_folder_raises.
Qed.

(** C4 (as amended): a model name that is not a directory of the cache
    and not a key of the registry makes [download_model] raise the
    unknown-model exception, whatever else the name is: no test of the
    name as a path to a checkpoint is made. *)
Theorem unknown_model_raises (model : string)
        (saving_directory_arg : option string) (w : World)
        (saving_directory : string) (w1 : World) :
  prepare_saving_directory X saving_directory_arg w = (Ok saving_directory, w1) ->
  Fs.isdir (fs w1) (saving_directory ++ model) = false ->
  dict_get available_metrics model = None ->
  download_model X available_metrics model saving_directory_arg w
  = (Raise (Exception_ (unknown_model_message model)), w1).
Proof.
  intros Hprep Hdir Hreg. unfold download_model.
  rewrite (bind_ok _ _ _ _ _ Hprep).
  apply bind_raise. unfold locate_or_download, bind, os_path_isdir.
  rewrite Hdir, Hreg. reflexivity.
Qed.

(** C5 (as amended): when the checkpoints directory is listed and none
    of its entries ends in [".ckpt"], [download_model] fails with the
    [IndexError] of indexing the empty list. *)
Theorem no_checkpoint_raises_index_error (model : string)
        (saving_directory_arg : option string) (w : World)
        (saving_directory model' : string) (w3 : World)
        (files : list string) :
  reaches_checkpoint_step X available_metrics model saving_directory_arg w
    saving_directory model' w3 ->
  os_listdir (checkpoints_folder saving_directory model') w3 = (Ok files, w3) ->
  matching_checkpoints files = [] ->
  download_model X available_metrics model saving_directory_arg w
  = (Raise (IndexError "list index out of range"), w3).
Proof.
  intros Hreach Hls Hnone.
  rewrite (download_model_at_checkpoint_step _ _ _ _ _ _ Hreach).
  rewrite (select_checkpoint_listed _ _ _ _ Hls), Hnone. reflexivity.
Qed.

Lemma locate_or_download_fresh (saving_directory model model' : string)
      (w1 w2 : World) :
  Fs.isdir (fs w1) (saving_directory ++ model) = false ->
  locate_or_download X available_metrics saving_directory model w1
  = (Ok model', w2) ->
  model' = model.
Proof.
  unfold locate_or_download, bind, os_path_isdir. intros Hdir.
  rewrite Hdir.
  destruct (dict_get available_metrics model) as [url|]; [|discriminate].
  destruct (PyStr.startswith url "https://"); [|discriminate].
  destruct (download_file_maybe_extract X url saving_directory None None [] w1)
    as [[a|e] w']; [|discriminate].
  unfold ret. intros H. inversion H. reflexivity.
Qed.

(** C9 (as amended): after a fresh download the cleanup tests the three
    paths [<saving_directory><model>.zip], [.tar.gz] and [.tar] and removes
    those that exist: when it raises nothing none of the three exists any
    more, and it raises nothing when none of them is a directory.  An
    error of a removal is not caught: [download_model] fails with it. *)
Theorem archives_removed_after_download (model : string)
        (saving_directory_arg : option string) (w : World)
        (saving_directory model' : string) (w1 w2 : World) :
  prepare_saving_directory X saving_directory_arg w = (Ok saving_directory, w1) ->
  Fs.isdir (fs w1) (saving_directory ++ model) = false ->
  locate_or_download X available_metrics saving_directory model w1
  = (Ok model', w2) ->
  model' = model
  /\
  (forall w3,
      clean_cache saving_directory model w2 = (Ok tt, w3) ->
      (forall p, In p (archive_paths saving_directory model) ->
                 Fs.exists_ (fs w3) p = false)
      /\ download_model X available_metrics model saving_directory_arg w
         = select_checkpoint saving_directory model w3)
  /\
  (forall e w3,
      clean_cache saving_directory model w2 = (Raise e, w3) ->
      download_model X available_metrics model saving_directory_arg w
      = (Raise e, w3))
  /\
  ((forall p, In p (archive_paths saving_directory model) ->
              Fs.isdir (fs w2) p = false) ->
   exists w3, clean_cache saving_directory model w2 = (Ok tt, w3)).
Proof.
  intros Hprep Hdir Hloc.
  pose proof (locate_or_download_fresh _ _ _ _ _ Hdir Hloc) as Hm. subst model'.
  split; [reflexivity|]. split; [|split].
  - intros w3 Hclean. split; [exact (clean_cache_ok _ _ _ _ Hclean)|].
    apply download_model_at_checkpoint_step.
    exists w1, w2. auto.
  - intros e w3 Hclean. unfold download_model.
    rewrite (bind_ok _ _ _ _ _ Hprep), (bind_ok _ _ _ _ _ Hloc).
    apply bind_raise, Hclean.
  - apply clean_cache_total.
Qed.

End Model.

(** ** Runs on the concrete world *)

Section Runs.
Import Demo.

Lemma cache_short_circuit_witness :
  chosen_filename externals demo_url None = Ok "demo.zip"
  /\ ["demo/checkpoints/a.ckpt"] <> []
  /\ (forall f, In f ["demo/checkpoints/a.ckpt"] ->
                Fs.isfile (fs (world_of (cached checkpoints_acb)))
                  (OsPath.join "/cache/" [f]) = true)
  /\ download_file_maybe_extract externals demo_url "/cache/" None None
       ["demo/checkpoints/a.ckpt"] (world_of (cached checkpoints_acb))
     = (Ok "/cache/demo.zip", world_of (cached checkpoints_acb)).
Proof.
  assert (H1 : ["demo/checkpoints/a.ckpt"] <> []) by discriminate.
  assert (H2 : forall f, In f ["demo/checkpoints/a.ckpt"] ->
                         Fs.isfile (fs (world_of (cached checkpoints_acb)))
                           (OsPath.join "/cache/" [f]) = true)
    by (intros f [<-|[]]; reflexivity).
  assert (H0 : chosen_filename externals demo_url None = Ok "demo.zip")
    by reflexivity.
  exact (conj H0 (conj H1 (conj H2
           (cache_short_circuit externals demo_url "/cache/" None None
              ["demo/checkpoints/a.ckpt"] "demo.zip"
              (world_of (cached checkpoints_acb)) H0 H1 H2)))).
Defined.

Lemma verification_after_extraction_witness :
  download_file_maybe_extract externals demo_url "/cache/" None None
    ["demo/checkpoints/a.ckpt"] (world_of empty_cache)
  = (Ok "/cache/demo.zip", downloaded)
  /\ download_file_maybe_extract externals demo_url "/cache/" None None
       ["demo/hparams.yaml"] (world_of empty_cache)
     = (Raise verification_error, downloaded).
Proof.
  split.
  - refine (proj2 (verification_after_extraction externals demo_url "/cache/"
                     None None ["demo/checkpoints/a.ckpt"] "demo.zip"
                     (world_of empty_cache) downloaded _ _ _) _).
    + reflexivity.
    + reflexivity.
    + reflexivity.
    + intros f [<-|[]]. reflexivity.
  - refine (proj1 (verification_after_extraction externals demo_url "/cache/"
                     None None ["demo/hparams.yaml"] "demo.zip"
                     (world_of empty_cache) downloaded _ _ _) _).
    + reflexivity.
    + reflexivity.
    + reflexivity.
    + exists "demo/hparams.yaml". split; [left; reflexivity|reflexivity].
Defined.

Lemma directory_marker_is_not_a_file_witness :
  chosen_filename externals demo_url None = Ok "demo.zip"
  /\ Fs.exists_ (fs (world_of (cached checkpoints_acb))) "/cache/demo" = true
  /\ Fs.isdir (fs (world_of (cached checkpoints_acb)))
       (OsPath.join "/cache/" ["demo"]) = true
  /\ _check_download (marker_paths "/cache/" ["demo"])
       (world_of (cached checkpoints_acb))
     = (Ok false, world_of (cached checkpoints_acb)).
Proof.
  split; [reflexivity|]. split; [reflexivity|]. split; [reflexivity|].
  refine (proj1 (directory_marker_is_not_a_file externals demo_url "/cache/"
                   None None ["demo"] "demo.zip" "demo"
                   (world_of (cached checkpoints_acb)) _ _ _)).
  - reflexivity.
  - left. reflexivity.
  - reflexivity.
Defined.

Lemma derive_extension_witness :
  derive_extension (OsPath.join "/cache/" ["model.tar.gz"]) = Ok "tar.gz"
  /\ derive_extension (OsPath.join "/cache/" ["model.zip"]) = Ok "zip"
  /\ derive_extension (OsPath.join "/cache/" ["modelnoext"])
     = Raise (IndexError "list index out of range").
Proof.
  split; [|split].
  - refine (proj1 (derive_extension_after_first_dot "/cache/" "model.tar.gz" _)
              "model" "tar.gz" _ _); reflexivity.
  - refine (proj1 (derive_extension_after_first_dot "/cache/" "model.zip" _)
              "model" "zip" _ _); reflexivity.
  - refine (proj2 (derive_extension_after_first_dot "/cache/" "modelnoext" _)
              _); reflexivity.
Defined.

Lemma extraction_dispatch_order_witness :
  extension_used "/cache/demo.tar.gzip" None = Ok "tar.gzip"
  /\ PyStr.contains "zip" "tar.gzip" = true
  /\ PyStr.contains "tar.gz" "tar.gzip" = true
  /\ PyStr.contains "tar" "tar.gzip" = true
  /\ _maybe_extract externals "/cache/demo.tar.gzip" "/cache/" None
       (world_of empty_cache)
     = extraction_outcome "/cache/demo.tar.gzip"
         (EvZipExtractall "/cache/demo.tar.gzip" "/cache/")
         (zip_extractall_fs externals "/cache/demo.tar.gzip" "/cache/"
            (fs (world_of empty_cache)))
         (world_of empty_cache).
Proof.
  split; [reflexivity|]. split; [reflexivity|]. split; [reflexivity|].
  split; [reflexivity|].
  refine (proj1 (extraction_dispatch_order externals "/cache/demo.tar.gzip"
                   "/cache/" None "tar.gzip" (world_of empty_cache) _) _);
    reflexivity.
Defined.

Lemma reaches_hit :
  reaches_checkpoint_step externals registry "demo" (Some "/cache/")
    (world_of (cached checkpoints_acb)) "/cache/" "demo/" hit.
Proof.
  exists (world_of (cached checkpoints_acb)), hit.
  split; [reflexivity|]. split; reflexivity.
Defined.

Lemma reaches_hit_without_checkpoint :
  reaches_checkpoint_step externals registry "demo" (Some "/cache/")
    (world_of cached_without_checkpoint) "/cache/" "demo/"
    hit_without_checkpoint.
Proof.
  exists (world_of cached_without_checkpoint), hit_without_checkpoint.
  split; [reflexivity|]. split; reflexivity.
Defined.

Lemma checkpoint_is_last_listed_witness :
  os_listdir (checkpoints_folder "/cache/" "demo/") hit
  = (Ok ["a.ckpt"; "c.ckpt"; "b.ckpt"], hit)
  /\ matching_checkpoints ["a.ckpt"; "c.ckpt"; "b.ckpt"] <> []
  /\ download_model externals registry "demo" (Some "/cache/")
       (world_of (cached checkpoints_acb))
     = (Ok "/cache/demo//checkpoints/b.ckpt", hit).
Proof.
  assert (H1 : os_listdir (checkpoints_folder "/cache/" "demo/") hit
               = (Ok ["a.ckpt"; "c.ckpt"; "b.ckpt"], hit)) by reflexivity.
  assert (H2 : matching_checkpoints ["a.ckpt"; "c.ckpt"; "b.ckpt"] <> [])
    by discriminate.
  exact (conj H1 (conj H2
           (proj1 (checkpoint_is_last_listed externals registry "demo"
                     (Some "/cache/") (world_of (cached checkpoints_acb))
                     "/cache/" "demo/" hit ["a.ckpt"; "c.ckpt"; "b.ckpt"]
                     reaches_hit H1 H2)))).
Defined.

(** C1, refuted as stated: the directory enumerates [a], [c], [b]; the
    function returns the path of [b.ckpt], the maximum is [c.ckpt]. *)
Lemma checkpoint_not_lexicographic_maximum :
  os_listdir "/cache/demo//checkpoints" hit
  = (Ok ["a.ckpt"; "c.ckpt"; "b.ckpt"], hit)
  /\ fst (download_model externals registry "demo" (Some "/cache/")
            (world_of (cached checkpoints_acb)))
     = Ok "/cache/demo//checkpoints/b.ckpt"
  /\ SpecSelection.spec_checkpoint_path "/cache/demo//checkpoints"
       ["a.ckpt"; "c.ckpt"; "b.ckpt"]
     = Ok "/cache/demo//checkpoints/c.ckpt"
  /\ fst (download_model externals registry "demo" (Some "/cache/")
            (world_of (cached checkpoints_acb)))
     <> SpecSelection.spec_checkpoint_path "/cache/demo//checkpoints"
          ["a.ckpt"; "c.ckpt"; "b.ckpt"].
Proof.
  split; [reflexivity|]. split; [reflexivity|]. split; [reflexivity|].
  intros H. vm_compute in H. discriminate H.
Qed.

Lemma unknown_model_raises_witness :
  Fs.isdir (fs (world_of empty_cache)) ("/cache/" ++ "nonexistent-model-xyz")
  = false
  /\ dict_get [] "nonexistent-model-xyz" = None
  /\ download_model externals [] "nonexistent-model-xyz" (Some "/cache/")
       (world_of empty_cache)
     = (Raise (Exception_ (unknown_model_message "nonexistent-model-xyz")),
        world_of empty_cache).
Proof.
  split; [reflexivity|]. split; [reflexivity|].
  refine (unknown_model_raises externals [] "nonexistent-model-xyz"
            (Some "/cache/") (world_of empty_cache) "/cache/"
            (world_of empty_cache) _ _ _); reflexivity.
Defined.

(** C4, refuted as stated: the model name is the path of an existing
    checkpoint file, and the call still fails. *)
Lemma checkpoint_path_is_not_used :
  valid_checkpoint_path local_checkpoint "/models/my.ckpt" = true
  /\ Fs.isdir local_checkpoint ("/cache/" ++ "/models/my.ckpt") = false
  /\ dict_get registry "/models/my.ckpt" = None
  /\ fst (download_model externals registry "/models/my.ckpt" (Some "/cache/")
            (world_of local_checkpoint))
     = Raise (Exception_ (unknown_model_message "/models/my.ckpt"))
  /\ fst (download_model externals registry "/models/my.ckpt" (Some "/cache/")
            (world_of local_checkpoint))
     <> Ok "/models/my.ckpt".
Proof.
  split; [reflexivity|]. split; [reflexivity|]. split; [reflexivity|].
  split; [reflexivity|]. intros H. vm_compute in H. discriminate H.
Qed.

Lemma no_checkpoint_raises_index_error_witness :
  os_listdir (checkpoints_folder "/cache/" "demo/") hit_without_checkpoint
  = (Ok ["notes.txt"], hit_without_checkpoint)
  /\ matching_checkpoints ["notes.txt"] = []
  /\ download_model externals registry "demo" (Some "/cache/")
       (world_of cached_without_checkpoint)
     = (Raise (IndexError "list index out of range"), hit_without_checkpoint).
Proof.
  split; [reflexivity|]. split; [reflexivity|].
  refine (no_checkpoint_raises_index_error externals registry "demo"
            (Some "/cache/") (world_of cached_without_checkpoint)
            "/cache/" "demo/" hit_without_checkpoint ["notes.txt"]
            reaches_hit_without_checkpoint _ _); reflexivity.
Defined.

(** C5, refuted as stated: the failure is the [IndexError] of a list
    index, which no [raise] statement of the module constructs, and the
    same exception comes out of a run that stops in the extraction of
    [modelnoext], before any checkpoint is looked for. *)
Lemma no_checkpoint_error_is_not_dedicated :
  matching_checkpoints ["notes.txt"] = []
  /\ fst (download_model externals registry "demo" (Some "/cache/")
            (world_of cached_without_checkpoint))
     = Raise (IndexError "list index out of range")
  /\ raised_by_module (IndexError "list index out of range") = false
  /\ fst (locate_or_download externals registry "/cache/" "noext"
            (world_of empty_cache))
     = Raise (IndexError "list index out of range").
Proof. repeat split; reflexivity. Qed.

Lemma archives_removed_after_download_witness :
  Fs.isdir (fs (world_of empty_cache)) ("/cache/" ++ "demo") = false
  /\ Fs.exists_ (fs downloaded) "/cache/demo.zip" = true
  /\ clean_cache "/cache/" "demo" downloaded = (Ok tt, cleaned)
  /\ (forall p, In p (archive_paths "/cache/" "demo") ->
                Fs.exists_ (fs cleaned) p = false).
Proof.
  split; [reflexivity|]. split; [reflexivity|]. split; [reflexivity|].
  refine (proj1 (proj1 (proj2 (archives_removed_after_download externals
                                 registry "demo" (Some "/cache/")
                                 (world_of empty_cache) "/cache/" "demo"
                                 (world_of empty_cache) downloaded _ _ _))
                   cleaned _)); reflexivity.
Defined.

(** C9, refuted as stated: on a cache hit the archive [demo.zip] that
    lies in the saving directory is still there after the call, and after
    a fresh download a directory named [demo.tar] makes the removal fail
    and the call with it. *)
Lemma cleanup_misses_archive_and_propagates :
  Fs.isfile cached_with_archive ("/cache/" ++ "demo" ++ ".zip") = true
  /\ fst (download_model externals registry "demo" (Some "/cache/")
            (world_of cached_with_archive))
     = Ok "/cache/demo//checkpoints/b.ckpt"
  /\ Fs.exists_
       (fs (snd (download_model externals registry "demo" (Some "/cache/")
                   (world_of cached_with_archive))))
       ("/cache/" ++ "demo" ++ ".zip") = true
  /\ Fs.exists_ cache_with_directory_demo_tar ("/cache/" ++ "demo" ++ ".tar")
     = true
  /\ fst (download_model externals registry "demo" (Some "/cache/")
            (world_of cache_with_directory_demo_tar))
     = Raise (IsADirectoryError "/cache/demo.tar").
Proof. repeat split; reflexivity. Qed.

End Runs.

(** * Further properties of the code *)

(** ** Paths as strings *)

Module PathFacts.
Import PyStr OsPath.

Lemma has_char_basename (p : string) : has_char sep_char (basename p) = false.
Proof.
  induction p as [|a r IH]; [reflexivity|].
  cbn [basename]. destruct (has_char sep_char r) eqn:Er; [exact IH|].
  destruct (Ascii.eqb a sep_char) eqn:Ea; [exact Er|].
  cbn [has_char]. rewrite Ea, Er. reflexivity.
Qed.

Lemma no_sep_not_startswith (f : string) :
  has_char sep_char f = false -> startswith f sep = false.
Proof.
  intros H. destruct (startswith f sep) eqn:E; [|reflexivity].
  rewrite (StrFacts.startswith_sep_has_char _ E) in H. discriminate.
Qed.

Lemma endswith_app (a b suf : string) :
  endswith b suf = true -> endswith (a ++ b) suf = true.
Proof.
  intros H. induction a as [|x a IH]; [exact H|].
  cbn [append]. rewrite StrFacts.endswith_cons, IH. apply orb_true_r.
Qed.

Lemma endswith_join (a b suf : string) :
  endswith b suf = true -> endswith (join a [b]) suf = true.
Proof.
  intros H. cbn [join].
  destruct (startswith b sep); [exact H|].
  destruct (String.eqb a "" || endswith a sep); apply endswith_app;
    [exact H|apply endswith_app, H].
Qed.

(** A name that ends with the separator is something followed by it. *)
Lemma endswith_sep_inv (a : string) :
  endswith a sep = true -> exists a0, a = a0 ++ sep.
Proof.
  induction a as [|x a IH]; [discriminate|].
  rewrite StrFacts.endswith_cons. intros H.
  apply orb_true_iff in H. destruct H as [H|H].
  - apply String.eqb_eq in H. exists "". exact H.
  - destruct (IH H) as [a0 Ha]. exists (String x a0). cbn [append].
    rewrite <- Ha. reflexivity.
Qed.

Lemma endswith_sep_not_empty (a : string) :
  endswith a sep = true -> String.eqb a "" = false.
Proof. destruct a; [discriminate|reflexivity]. Qed.

(** Directly below a directory name that ends with the separator. *)
Lemma join_below (d f : string) :
  endswith d sep = true -> has_char sep_char f = false ->
  join d [f] = d ++ f.
Proof.
  intros Hd Hf. cbn [join].
  rewrite (no_sep_not_startswith _ Hf), Hd, orb_true_r. reflexivity.
Qed.

Lemma split_app_sep (c : ascii) (a b : string) :
  split c (a ++ String c b) = (split c a ++ split c b)%list.
Proof.
  induction a as [|x a IH].
  - cbn [append split]. rewrite Ascii.eqb_refl. reflexivity.
  - cbn [append split]. destruct (Ascii.eqb x c).
    + rewrite IH. reflexivity.
    + rewrite IH. destruct (split c a) as [|h t] eqn:E.
      * exfalso. exact (FsFacts.split_not_nil c a E).
      * reflexivity.
Qed.

Lemma components_app_sep (a b : string) :
  Fs.components (a ++ sep ++ b)
  = (Fs.components a ++ Fs.components b)%list.
Proof.
  unfold Fs.components.
  change (a ++ sep ++ b) with (a ++ String sep_char b).
  rewrite split_app_sep. apply filter_app.
Qed.

Lemma components_with_sep (a : string) :
  Fs.components (a ++ sep) = Fs.components a.
Proof.
  change (a ++ sep) with (a ++ sep ++ "").
  rewrite components_app_sep. apply app_nil_r.
Qed.

Lemma names_directory_with_sep (a : string) :
  endswith a sep = true -> Fs.names_directory a = true.
Proof.
  intros H. destruct (endswith_sep_inv _ H) as [a0 Ha]. subst a.
  unfold Fs.names_directory.
  change (a0 ++ sep) with (a0 ++ String sep_char "").
  rewrite split_app_sep. cbn [split]. rewrite last_last. reflexivity.
Qed.

End PathFacts.

(** ** More of the file system model *)

Module FsFrame.
Import Fs.

Lemma walk_app (cs cs' : list string) :
  forall n, walk (cs ++ cs') n
            = match walk cs n with
              | Some m => walk cs' m
              | None => None
              end.
Proof.
  induction cs as [|c cs IH]; intros n; [reflexivity|].
  cbn [app walk]. destruct n as [|es]; [reflexivity|].
  destruct (find_entry c es) as [n'|]; [apply IH|reflexivity].
Qed.

(** What lies on the way to a directory is a directory. *)
Lemma walk_prefix_dir (cs cs' : list string) (n : node)
      (es : list (string * node)) :
  walk (cs ++ cs') n = Some (Dir es) ->
  exists es0, walk cs n = Some (Dir es0).
Proof.
  rewrite walk_app. destruct (walk cs n) as [[|es0]|]; try discriminate.
  - destruct cs'; discriminate.
  - intros _. exists es0. reflexivity.
Qed.

Lemma find_entry_new (c : string) (x : node) (es : list (string * node)) :
  find_entry c es = None -> find_entry c (es ++ [(c, x)]) = Some x.
Proof.
  induction es as [|[n y] es IH]; cbn [app find_entry].
  - rewrite String.eqb_refl. reflexivity.
  - destruct (String.eqb n c); [discriminate|exact IH].
Qed.

Lemma find_entry_replace (c : string) (x y : node)
      (es : list (string * node)) :
  find_entry c es = Some y -> find_entry c (replace c x es) = Some x.
Proof.
  unfold replace. induction es as [|[n z] es IH]; [discriminate|].
  cbn [map find_entry fst]. destruct (String.eqb n c) eqn:E.
  - intros _. cbn [find_entry]. rewrite E. reflexivity.
  - cbn [find_entry]. rewrite E. exact IH.
Qed.

Lemma walk_wrap (cs : list string) (x : node) : walk cs (wrap cs x) = Some x.
Proof.
  induction cs as [|c cs IH]; [reflexivity|].
  cbn [wrap walk find_entry]. rewrite String.eqb_refl. exact IH.
Qed.

(** What was put at a place is found there. *)
Lemma walk_put (cs : list string) (x : node) :
  forall n n', put cs x n = Some n' -> walk cs n' = Some x.
Proof.
  induction cs as [|c cs IH]; intros n n' H.
  - inversion H. reflexivity.
  - cbn [put] in H. destruct n as [|es]; [discriminate|].
    destruct (find_entry c es) as [n1|] eqn:Ef.
    + destruct (put cs x n1) as [n2|] eqn:Ep; [|discriminate].
      inversion H; subst. cbn [walk].
      rewrite (find_entry_replace _ _ _ _ Ef). exact (IH _ _ Ep).
    + inversion H; subst. cbn [walk].
      rewrite (find_entry_new _ _ _ Ef). apply walk_wrap.
Qed.

(** The removal of a file leaves the kind of every other place. *)
Lemma walk_remove_at_other (cs : list string) :
  forall cs' n,
    cs' <> cs -> walk cs n = Some File ->
    option_map is_dir (walk cs' (remove_at cs n))
    = option_map is_dir (walk cs' n).
Proof.
  induction cs as [|c cs IH]; intros cs' n Hne Hw; [reflexivity|].
  destruct n as [|es]; [discriminate|].
  cbn [walk] in Hw. destruct (find_entry c es) as [n1|] eqn:Ef; [|discriminate].
  destruct cs' as [|c' cs1'].
  - destruct cs; reflexivity.
  - destruct (String.eqb c c') eqn:E.
    + apply String.eqb_eq in E. subst c'.
      assert (Hne1 : cs1' <> cs) by congruence.
      destruct cs as [|c2 cs2].
      * cbn [remove_at walk]. rewrite FsFacts.find_entry_filter_same, Ef.
        cbn [walk] in Hw. inversion Hw; subst.
        destruct cs1'; [congruence|reflexivity].
      * rewrite FsFacts.remove_at_deeper. cbn [walk].
        rewrite (FsFacts.find_entry_map_same c (remove_at (c2 :: cs2))), Ef.
        cbn [option_map]. apply IH; assumption.
    + destruct cs as [|c2 cs2].
      * cbn [remove_at walk].
        rewrite (FsFacts.find_entry_filter_other _ _ _ E). reflexivity.
      * rewrite FsFacts.remove_at_deeper. cbn [walk].
        rewrite (FsFacts.find_entry_map_other c c' (remove_at (c2 :: cs2)) es E).
        reflexivity.
Qed.

Lemma stat_kind (root root' : node) (q : string) :
  option_map is_dir (walk (components q) root')
  = option_map is_dir (walk (components q) root) ->
  option_map is_dir (stat root' q) = option_map is_dir (stat root q).
Proof.
  unfold stat. destruct (String.eqb q ""); [reflexivity|].
  destruct (walk (components q) root') as [[|es']|];
    destruct (walk (components q) root) as [[|es]|];
    cbn [option_map is_dir]; intros H; try discriminate H;
    reflexivity.
Qed.

Lemma isfile_kind (root root' : node) (q : string) :
  option_map is_dir (stat root' q) = option_map is_dir (stat root q) ->
  isfile root' q = isfile root q /\ isdir root' q = isdir root q.
Proof.
  unfold isfile, isdir.
  destruct (stat root' q) as [[|es']|]; destruct (stat root q) as [[|es]|];
    cbn [option_map is_dir]; intros H; try discriminate H; split; reflexivity.
Qed.

(** [os.remove(p)] changes what [p] names and nothing else. *)
Lemma remove_frame (root : node) (p q : string) :
  stat root p = Some File ->
  components q <> components p ->
  isfile (remove_at (components p) root) q = isfile root q
  /\ isdir (remove_at (components p) root) q = isdir root q.
Proof.
  intros Hp Hne. destruct (FsFacts.stat_file _ _ Hp) as [Hw _].
  apply isfile_kind, stat_kind, walk_remove_at_other; assumption.
Qed.

End FsFrame.

(** ** Directories *)

Lemma bind_ok_inv {A B} (m : M A) (k : A -> M B) (w w' : World) (b : B) :
  bind m k w = (Ok b, w') ->
  exists a w1, m w = (Ok a, w1) /\ k a w1 = (Ok b, w').
Proof.
  unfold bind. destruct (m w) as [[a|e] w1]; [|discriminate].
  intros H. exists a, w1. split; [reflexivity|exact H].
Qed.

Lemma exists_with_sep (root : node) (p : string) :
  PyStr.endswith p OsPath.sep = true ->
  Fs.exists_ root p = true -> Fs.isdir root p = true.
Proof.
  intros Hp. unfold Fs.exists_, Fs.isdir, Fs.stat.
  rewrite (PathFacts.names_directory_with_sep _ Hp).
  destruct (String.eqb p ""); [discriminate|].
  destruct (Fs.walk (Fs.components p) root) as [[|es]|]; try discriminate.
  reflexivity.
Qed.

(** [os.makedirs] leaves a directory where it was asked for one. *)
Lemma os_makedirs_ok (p : string) (w w1 : World) :
  os_makedirs p w = (Ok tt, w1) ->
  Fs.isdir (fs w1) p = true /\ trace w1 = trace w.
Proof.
  unfold os_makedirs. destruct (String.eqb p "") eqn:Ep; [discriminate|].
  destruct (Fs.walk (Fs.components p) (fs w)); [discriminate|].
  destruct (Fs.mkdirs (Fs.components p) (fs w)) as [root|] eqn:Em;
    [|discriminate].
  intros H. inversion H; subst. cbn [fs trace]. split; [|reflexivity].
  unfold Fs.isdir, Fs.stat. rewrite Ep.
  rewrite (FsFrame.walk_put _ _ _ _ Em). reflexivity.
Qed.




Lemma ensure_directory_present (directory : string) (w : World) :
  Fs.isdir (fs w) directory = true ->
  ensure_directory directory w = (Ok tt, w).
Proof.
  intros H. unfold ensure_directory, bind, os_path_isdir. rewrite H.
  reflexivity.
Qed.

Section Directories.

Variable X : Externals.

(** What [prepare_saving_directory] returns, and where. *)
Lemma prepare_saving_directory_inv (saving_directory_arg : option string)
      (w : World) (sd : string) (w1 : World) :
  prepare_saving_directory X saving_directory_arg w = (Ok sd, w1) ->
  exists d,
    saving_directory_arg = Some d
    /\ sd = (if PyStr.endswith d OsPath.sep then d else d ++ OsPath.sep)
    /\ (if Fs.exists_ (fs w) sd then w1 = w
        else os_makedirs sd w = (Ok tt, w1)).
Proof.
  unfold prepare_saving_directory. intros H.
  destruct saving_directory_arg as [d|].
  - exists d. split; [reflexivity|].
    unfold bind, ret, os_path_exists in H.
    set (sd0 := if PyStr.endswith d OsPath.sep then d else d ++ OsPath.sep) in *.
    destruct (Fs.exists_ (fs w) sd0) eqn:Ee; cbn [negb] in H.
    + inversion H; subst. rewrite Ee. split; reflexivity.
    + destruct (os_makedirs sd0 w) as [[[]|e] w2] eqn:Em; [|discriminate].
      inversion H; subst. rewrite Ee. split; [reflexivity|exact Em].
  - rewrite (bind_raise _ _ _ _ _ (get_cache_folder_raises X w)) in H.
    discriminate.
Qed.

Lemma normalised_endswith_sep (d : string) :
  PyStr.endswith (if PyStr.endswith d OsPath.sep then d else d ++ OsPath.sep)
    OsPath.sep = true.
Proof.
  destruct (PyStr.endswith d OsPath.sep) eqn:E; [exact E|].
  apply StrFacts.endswith_app_sep.
Qed.

Lemma prepare_saving_directory_ok (saving_directory_arg : option string)
      (w : World) (sd : string) (w1 : World) :
  prepare_saving_directory X saving_directory_arg w = (Ok sd, w1) ->
  PyStr.endswith sd OsPath.sep = true
  /\ Fs.isdir (fs w1) sd = true
  /\ trace w1 = trace w.
Proof.
  intros H. destruct (prepare_saving_directory_inv _ _ _ _ H) as [d [_ [Hsd Hw]]].
  assert (Hend : PyStr.endswith sd OsPath.sep = true).
  { subst sd. apply normalised_endswith_sep. }
  split; [exact Hend|].
  destruct (Fs.exists_ (fs w) sd) eqn:Ee.
  - subst w1. split; [apply exists_with_sep; assumption|reflexivity].
  - apply os_makedirs_ok, Hw.
Qed.

(** X1: when [download_model] gets past lines 208-215, a saving directory
    was given, the name it works with is that directory with the separator
    at its end (added if it was missing), this name is a directory of the
    file system, nothing was transferred or logged, and a directory that
    was there already leaves the world as it was. *)
Theorem saving_directory_is_prepared (saving_directory_arg : option string)
        (w : World) (sd : string) (w1 : World) :
  prepare_saving_directory X saving_directory_arg w = (Ok sd, w1) ->
  (exists d,
      saving_directory_arg = Some d
      /\ sd = (if PyStr.endswith d OsPath.sep then d else d ++ OsPath.sep))
  /\ PyStr.endswith sd OsPath.sep = true
  /\ Fs.isdir (fs w1) sd = true
  /\ trace w1 = trace w
  /\ (Fs.exists_ (fs w) sd = true -> w1 = w).
Proof.
  intros H.
  destruct (prepare_saving_directory_inv _ _ _ _ H) as [d [Hd [Hsd Hw]]].
  destruct (prepare_saving_directory_ok _ _ _ _ H) as [Hend [Hdir Htr]].
  split; [exists d; split; assumption|].
  repeat split; try assumption.
  intros He. rewrite He in Hw. exact Hw.
Qed.


End Directories.

(** ** What the cleanup leaves alone *)

Lemma remove_if_exists_frame (p : string) (w w' : World) (r : Result unit) :
  remove_if_exists p w = (r, w') ->
  trace w' = trace w
  /\ forall q, Fs.components q <> Fs.components p ->
               Fs.isfile (fs w') q = Fs.isfile (fs w) q
               /\ Fs.isdir (fs w') q = Fs.isdir (fs w) q.
Proof.
  unfold remove_if_exists, bind, os_path_exists, os_remove, ret.
  destruct (Fs.exists_ (fs w) p).
  - destruct (Fs.stat (fs w) p) as [[|es]|] eqn:Es; intros H;
      inversion H; subst; clear H; cbn [fs trace];
      (split; [reflexivity|]); intros q Hq; try (split; reflexivity).
    apply FsFrame.remove_frame; assumption.
  - intros H. inversion H; subst. split; [reflexivity|].
    intros q _. split; reflexivity.
Qed.

Lemma clean_cache_frame (saving_directory model : string) (w w' : World)
      (r : Result unit) :
  clean_cache saving_directory model w = (r, w') ->
  trace w' = trace w
  /\ forall q,
      (forall p, In p (archive_paths saving_directory model) ->
                 Fs.components q <> Fs.components p) ->
      Fs.isfile (fs w') q = Fs.isfile (fs w) q
      /\ Fs.isdir (fs w') q = Fs.isdir (fs w) q.
Proof.
  unfold clean_cache, bind. unfold archive_paths.
  destruct (remove_if_exists _ w) as [r1 wa] eqn:E1.
  destruct (remove_if_exists_frame _ _ _ _ E1) as [Ta Fa].
  assert (Hone : forall q,
             (forall p, In p [(saving_directory ++ model) ++ ".zip";
                              (saving_directory ++ model) ++ ".tar.gz";
                              (saving_directory ++ model) ++ ".tar"] ->
                        Fs.components q <> Fs.components p) ->
             Fs.isfile (fs wa) q = Fs.isfile (fs w) q
             /\ Fs.isdir (fs wa) q = Fs.isdir (fs w) q).
  { intros q Hq. apply Fa, Hq. left. reflexivity. }
  destruct r1 as [[]|e1].
  - destruct (remove_if_exists _ wa) as [r2 wb] eqn:E2.
    destruct (remove_if_exists_frame _ _ _ _ E2) as [Tb Fb].
    assert (Htwo : forall q,
               (forall p, In p [(saving_directory ++ model) ++ ".zip";
                                (saving_directory ++ model) ++ ".tar.gz";
                                (saving_directory ++ model) ++ ".tar"] ->
                          Fs.components q <> Fs.components p) ->
               Fs.isfile (fs wb) q = Fs.isfile (fs w) q
               /\ Fs.isdir (fs wb) q = Fs.isdir (fs w) q).
    { intros q Hq. destruct (Hone q Hq) as [H1 H2].
      destruct (Fb q (Hq _ (or_intror (or_introl eq_refl)))) as [H3 H4].
      split; congruence. }
    destruct r2 as [[]|e2].
    + intros E3. destruct (remove_if_exists_frame _ _ _ _ E3) as [Tc Fc].
      split; [congruence|]. intros q Hq. destruct (Htwo q Hq) as [H1 H2].
      destruct (Fc q (Hq _ (or_intror (or_intror (or_introl eq_refl)))))
        as [H3 H4].
      split; congruence.
    + intros H. inversion H; subst. split; [congruence|exact Htwo].
  - intros H. inversion H; subst. split; [exact Ta|exact Hone].
Qed.


(** ** The name of the downloaded file *)

(** X4: the file name taken from a URL (lines 106-116, 158-162) holds no
    separator, so the file is written directly in [directory] when that
    name ends with the separator, and the extension derived for it is that
    of this name, whatever dots the directory has. *)
Theorem filename_from_url_is_a_name (X : Externals) (url directory name : string) :
  _get_filename_from_url X url = Ok name ->
  PyStr.has_char OsPath.sep_char name = false
  /\ OsPath.basename (OsPath.join directory [name]) = name
  /\ derive_extension (OsPath.join directory [name])
     = item1 (PyStr.split1 "."%char name)
  /\ (PyStr.endswith directory OsPath.sep = true ->
      OsPath.join directory [name] = directory ++ name).
Proof.
  intros Hname.
  assert (H : PyStr.has_char OsPath.sep_char name = false).
  { unfold _get_filename_from_url in Hname.
    destruct (urlparse_path X url) as [path|e]; [|discriminate].
    inversion Hname. apply PathFacts.has_char_basename. }
  split; [exact H|]. split; [apply StrFacts.basename_join, H|].
  split.
  - unfold derive_extension. rewrite (StrFacts.basename_join _ _ H).
    reflexivity.
  - intros Hd. apply PathFacts.join_below; assumption.
Qed.

(** ** Whole runs of [download_model] *)

Lemma os_listdir_inv (p : string) (w w' : World) (files : list string) :
  os_listdir p w = (Ok files, w') ->
  w' = w /\ exists es, Fs.stat (fs w) p = Some (Dir es) /\ files = map fst es.
Proof.
  unfold os_listdir. destruct (Fs.stat (fs w) p) as [[|es]|]; try discriminate.
  intros H. inversion H; subst. split; [reflexivity|].
  exists es. split; reflexivity.
Qed.

Lemma select_checkpoint_inv (sd m : string) (w w' : World) (path : string) :
  select_checkpoint sd m w = (Ok path, w') ->
  w' = w
  /\ exists files ckpt,
      os_listdir (checkpoints_folder sd m) w = (Ok files, w)
      /\ In ckpt (matching_checkpoints files)
      /\ path = OsPath.join (checkpoints_folder sd m) [ckpt].
Proof.
  unfold select_checkpoint. intros H.
  destruct (bind_ok_inv _ _ _ _ _ H) as [files [w1 [Hls Hrest]]].
  destruct (os_listdir_inv _ _ _ _ Hls) as [Hw _]. subst w1.
  unfold bind, lift, ret in Hrest. fold (matching_checkpoints files) in Hrest.
  destruct (matching_checkpoints files) as [|x l] eqn:El; [discriminate|].
  cbn [last_item] in Hrest. inversion Hrest; subst.
  split; [reflexivity|]. exists files, (last l x).
  split; [exact Hls|]. split; [|reflexivity].
  rewrite El, <- (last_cons x l ""). apply FsFacts.last_in. discriminate.
Qed.

Lemma select_checkpoint_world (sd m : string) (w : World) :
  snd (select_checkpoint sd m w) = w.
Proof.
  unfold select_checkpoint, bind, os_listdir, lift, ret.
  destruct (Fs.stat (fs w) (checkpoints_folder sd m)) as [[|es]|];
    try reflexivity.
  destruct (last_item _); reflexivity.
Qed.

Section WholeRuns.

Variable X : Externals.

Lemma download_model_ok_inv (reg : list (string * string)) (model : string)
      (saving_directory_arg : option string) (w w' : World) (path : string) :
  download_model X reg model saving_directory_arg w = (Ok path, w') ->
  exists sd m w1 w2,
    prepare_saving_directory X saving_directory_arg w = (Ok sd, w1)
    /\ locate_or_download X reg sd model w1 = (Ok m, w2)
    /\ clean_cache sd m w2 = (Ok tt, w')
    /\ select_checkpoint sd m w' = (Ok path, w').
Proof.
  unfold download_model. intros H.
  destruct (bind_ok_inv _ _ _ _ _ H) as [sd [w1 [H1 H2]]].
  destruct (bind_ok_inv _ _ _ _ _ H2) as [m [w2 [H3 H4]]].
  destruct (bind_ok_inv _ _ _ _ _ H4) as [[] [w3 [H5 H6]]].
  destruct (select_checkpoint_inv _ _ _ _ _ H6) as [Hw _]. subst w3.
  exists sd, m, w1, w2. auto.
Qed.

Lemma locate_or_download_model (reg : list (string * string))
      (sd model m : string) (w1 w2 : World) :
  locate_or_download X reg sd model w1 = (Ok m, w2) ->
  m = model \/ m = cache_hit_model model.
Proof.
  unfold locate_or_download, bind, os_path_isdir, logger_info, emit, ret.
  destruct (Fs.isdir (fs w1) (sd ++ model)).
  - intros H. inversion H. right. reflexivity.
  - destruct (dict_get reg model) as [url|]; [|discriminate].
    destruct (PyStr.startswith url "https://"); [|discriminate].
    destruct (download_file_maybe_extract X url sd None None [] w1)
      as [[a|e] w']; [|discriminate].
    intros H. inversion H. left. reflexivity.
Qed.

(** X5: a path that [download_model] returns ends in [".ckpt"], and it is
    an entry of a directory that the file system holds when the call
    returns, joined to the name of that directory. *)
Theorem returned_path_is_a_checkpoint (reg : list (string * string))
        (model : string) (saving_directory_arg : option string)
        (w w' : World) (path : string) :
  download_model X reg model saving_directory_arg w = (Ok path, w') ->
  PyStr.endswith path ".ckpt" = true
  /\ exists folder files checkpoint,
      os_listdir folder w' = (Ok files, w')
      /\ In checkpoint files
      /\ path = OsPath.join folder [checkpoint].
Proof.
  intros H.
  destruct (download_model_ok_inv _ _ _ _ _ _ H)
    as [sd [m [w1 [w2 [_ [_ [_ Hsel]]]]]]].
  destruct (select_checkpoint_inv _ _ _ _ _ Hsel)
    as [_ [files [ckpt [Hls [Hin Hpath]]]]].
  unfold matching_checkpoints in Hin. apply filter_In in Hin.
  destruct Hin as [Hin Hsuffix]. split.
  - subst path. apply PathFacts.endswith_join, Hsuffix.
  - exists (checkpoints_folder sd m), files, ckpt. auto.
Qed.

(** X6: a model that is not in the cache and whose registry entry does not
    start with ["https://"] makes [download_model] raise
    [Exception("Invalid model name!")]; the world is the one that the
    preparation of the saving directory left, nothing is transferred. *)
Theorem invalid_registry_entry_raises (reg : list (string * string))
        (model : string) (saving_directory_arg : option string) (w : World)
        (sd : string) (w1 : World) (url : string) :
  prepare_saving_directory X saving_directory_arg w = (Ok sd, w1) ->
  Fs.isdir (fs w1) (sd ++ model) = false ->
  dict_get reg model = Some url ->
  PyStr.startswith url "https://" = false ->
  download_model X reg model saving_directory_arg w
  = (Raise (Exception_ "Invalid model name!"), w1).
Proof.
  intros Hprep Hdir Hreg Hurl. unfold download_model.
  rewrite (bind_ok _ _ _ _ _ Hprep).
  apply bind_raise. unfold locate_or_download, bind, os_path_isdir.
  rewrite Hdir, Hreg, Hurl. reflexivity.
Qed.

(** On a cache hit the rest of the run is the cleanup and the selection,
    whatever the registry holds. *)
Lemma download_model_cache_hit (reg : list (string * string))
      (model : string) (saving_directory_arg : option string) (w : World)
      (sd : string) (w1 : World) :
  prepare_saving_directory X saving_directory_arg w = (Ok sd, w1) ->
  Fs.isdir (fs w1) (sd ++ model) = true ->
  download_model X reg model saving_directory_arg w
  = (clean_cache sd (cache_hit_model model) ;;
     select_checkpoint sd (cache_hit_model model))
      (mkWorld (fs w1) (trace w1 ++ [cache_hit_event model])%list).
Proof.
  intros Hprep Hdir. unfold download_model.
  rewrite (bind_ok _ _ _ _ _ Hprep).
  unfold locate_or_download, os_path_isdir, logger_info, emit.
  unfold bind at 1 2 3. rewrite Hdir. reflexivity.
Qed.

Lemma cleanup_and_selection_trace (sd m : string) (w : World) :
  trace (snd ((clean_cache sd m ;; select_checkpoint sd m) w)) = trace w.
Proof.
  unfold bind. destruct (clean_cache sd m w) as [[[]|e] w'] eqn:E;
    destruct (clean_cache_frame _ _ _ _ _ E) as [Ht _].
  - rewrite select_checkpoint_world. exact Ht.
  - exact Ht.
Qed.

(** X7: a model directory that is in the cache decides the run: the
    registry is not looked at (the result is the same for any two
    registries, also when the name is in neither), and the only event of
    the run is the log line of the cache hit: no transfer, no extraction. *)
Theorem cached_model_ignores_registry (reg reg' : list (string * string))
        (model : string) (saving_directory_arg : option string) (w : World)
        (sd : string) (w1 : World) :
  prepare_saving_directory X saving_directory_arg w = (Ok sd, w1) ->
  Fs.isdir (fs w1) (sd ++ model) = true ->
  download_model X reg model saving_directory_arg w
  = download_model X reg' model saving_directory_arg w
  /\ trace (snd (download_model X reg model saving_directory_arg w))
     = (trace w ++ [cache_hit_event model])%list.
Proof.
  intros Hprep Hdir.
  rewrite !(download_model_cache_hit _ _ _ _ _ _ Hprep Hdir).
  split; [reflexivity|].
  rewrite cleanup_and_selection_trace. cbn [trace].
  destruct (prepare_saving_directory_ok _ _ _ _ _ Hprep) as [_ [_ Ht]].
  rewrite Ht. reflexivity.
Qed.

End WholeRuns.

(** ** A second call *)

Lemma stat_dir (root : node) (p : string) (es : list (string * node)) :
  Fs.stat root p = Some (Dir es) ->
  Fs.walk (Fs.components p) root = Some (Dir es).
Proof.
  unfold Fs.stat. destruct (String.eqb p ""); [discriminate|].
  destruct (Fs.walk (Fs.components p) root) as [[|es0]|]; try discriminate.
  - destruct (Fs.names_directory p); discriminate.
  - intros H. exact H.
Qed.

Lemma walk_dir_isdir (root : node) (p : string) (es : list (string * node)) :
  String.eqb p "" = false ->
  Fs.walk (Fs.components p) root = Some (Dir es) ->
  Fs.isdir root p = true /\ Fs.exists_ root p = true.
Proof.
  intros Hp Hw. unfold Fs.isdir, Fs.exists_, Fs.stat. rewrite Hp, Hw.
  split; reflexivity.
Qed.

Lemma checkpoints_folder_components (sd m : string) :
  Fs.components (checkpoints_folder sd m)
  = (Fs.components (sd ++ m) ++ ["checkpoints"])%list.
Proof.
  unfold checkpoints_folder. rewrite StrFacts.append_assoc.
  rewrite PathFacts.components_app_sep. reflexivity.
Qed.

Lemma components_cache_hit_model (sd model : string) :
  Fs.components (sd ++ cache_hit_model model) = Fs.components (sd ++ model).
Proof.
  unfold cache_hit_model. destruct (PyStr.endswith model OsPath.sep);
    [reflexivity|].
  rewrite <- StrFacts.append_assoc. apply PathFacts.components_with_sep.
Qed.

Lemma app_not_empty (a b : string) :
  String.eqb a "" = false -> String.eqb (a ++ b) "" = false.
Proof. destruct a; [discriminate|reflexivity]. Qed.

(** Where a checkpoints directory was listed, the model directory and the
    saving directory are directories. *)
Lemma listed_model_directory (root : node) (sd m model : string)
      (es : list (string * node)) :
  PyStr.endswith sd OsPath.sep = true ->
  m = model \/ m = cache_hit_model model ->
  Fs.stat root (checkpoints_folder sd m) = Some (Dir es) ->
  Fs.isdir root (sd ++ model) = true /\ Fs.exists_ root sd = true.
Proof.
  intros Hsd Hm Hst. apply stat_dir in Hst.
  rewrite checkpoints_folder_components in Hst.
  assert (Hc : Fs.components (sd ++ m) = Fs.components (sd ++ model)).
  { destruct Hm as [->| ->]; [reflexivity|apply components_cache_hit_model]. }
  rewrite Hc in Hst.
  destruct (FsFrame.walk_prefix_dir _ _ _ _ Hst) as [es0 Hmodel].
  pose proof (PathFacts.endswith_sep_not_empty _ Hsd) as Hne.
  split.
  - exact (proj1 (walk_dir_isdir _ _ _ (app_not_empty _ model Hne) Hmodel)).
  - destruct (PathFacts.endswith_sep_inv _ Hsd) as [s0 Hs0].
    assert (Hsplit : Fs.components (sd ++ model)
                     = (Fs.components sd ++ Fs.components model)%list).
    { rewrite Hs0 at 1. rewrite StrFacts.append_assoc.
      rewrite PathFacts.components_app_sep.
      rewrite Hs0, PathFacts.components_with_sep. reflexivity. }
    rewrite Hsplit in Hmodel.
    destruct (FsFrame.walk_prefix_dir _ _ _ _ Hmodel) as [es1 Hdir].
    exact (proj2 (walk_dir_isdir _ _ _ Hne Hdir)).
Qed.

Section SecondCall.

Variable X : Externals.

Lemma prepare_present (d : string) (w : World) :
  Fs.exists_ (fs w)
    (if PyStr.endswith d OsPath.sep then d else d ++ OsPath.sep) = true ->
  prepare_saving_directory X (Some d) w
  = (Ok (if PyStr.endswith d OsPath.sep then d else d ++ OsPath.sep), w).
Proof.
  intros H. unfold prepare_saving_directory, bind, ret, os_path_exists.
  rewrite H. reflexivity.
Qed.

(** After a call that returned, the same call finds the model in the
    cache. *)
Lemma cache_hit_after_success (reg : list (string * string)) (model : string)
      (saving_directory_arg : option string) (w w' : World) (path : string) :
  download_model X reg model saving_directory_arg w = (Ok path, w') ->
  exists sd m,
    prepare_saving_directory X saving_directory_arg w' = (Ok sd, w')
    /\ Fs.isdir (fs w') (sd ++ model) = true
    /\ PyStr.endswith sd OsPath.sep = true
    /\ (m = model \/ m = cache_hit_model model)
    /\ select_checkpoint sd m w' = (Ok path, w').
Proof.
  intros H.
  destruct (download_model_ok_inv _ _ _ _ _ _ _ H)
    as [sd [m [w1 [w2 [Hprep [Hloc [_ Hsel]]]]]]].
  destruct (prepare_saving_directory_inv _ _ _ _ _ Hprep) as [d [Harg [Hsd _]]].
  destruct (prepare_saving_directory_ok _ _ _ _ _ Hprep) as [Hend _].
  pose proof (locate_or_download_model _ _ _ _ _ _ _ Hloc) as Hm.
  destruct (select_checkpoint_inv _ _ _ _ _ Hsel)
    as [_ [files [ckpt [Hls _]]]].
  destruct (os_listdir_inv _ _ _ _ Hls) as [_ [es [Hst _]]].
  destruct (listed_model_directory _ _ _ _ _ Hend Hm Hst) as [Hdir Hex].
  exists sd, m. repeat split; try assumption.
  subst saving_directory_arg. rewrite Hsd in Hex |- *.
  apply prepare_present, Hex.
Qed.

(** X8: after a call of [download_model] that returned a path, the same
    call in the world it left transfers and extracts nothing: it finds the
    model directory in the cache, and the log line of the cache hit is the
    only event it adds. *)
Theorem second_call_does_not_download (reg : list (string * string))
        (model : string) (saving_directory_arg : option string)
        (w w' : World) (path : string) :
  download_model X reg model saving_directory_arg w = (Ok path, w') ->
  trace (snd (download_model X reg model saving_directory_arg w'))
  = (trace w' ++ [cache_hit_event model])%list.
Proof.
  intros H.
  destruct (cache_hit_after_success _ _ _ _ _ _ H)
    as [sd [m [Hprep [Hdir _]]]].
  rewrite (download_model_cache_hit _ _ _ _ _ _ _ Hprep Hdir).
  rewrite cleanup_and_selection_trace. reflexivity.
Qed.

End SecondCall.

(** ** What a second call returns *)

Lemma walk_remove_at_sibling (cs : list string) (c c' : string)
      (rest : list string) :
  String.eqb c c' = false ->
  forall n,
    Fs.walk (cs ++ c' :: rest) (Fs.remove_at (cs ++ [c]) n)
    = Fs.walk (cs ++ c' :: rest) n.
Proof.
  intros Hne. induction cs as [|a cs IH]; intros n.
  - cbn [app]. destruct n as [|es]; [reflexivity|].
    cbn [Fs.remove_at Fs.walk].
    rewrite (FsFacts.find_entry_filter_other _ _ _ Hne). reflexivity.
  - cbn [app]. destruct n as [|es]; [reflexivity|].
    destruct (cs ++ [c])%list as [|c2 cs2] eqn:E.
    + exfalso. exact (app_cons_not_nil _ _ _ (eq_sym E)).
    + rewrite FsFacts.remove_at_deeper. cbn [Fs.walk].
      rewrite (FsFacts.find_entry_map_same a (Fs.remove_at (c2 :: cs2))).
      destruct (Fs.find_entry a es) as [n1|]; [|reflexivity].
      cbn [option_map]. apply IH.
Qed.

Lemma remove_if_exists_sibling (p : string) (w w' : World) (r : Result unit)
      (cs : list string) (c c' : string) (rest : list string) :
  remove_if_exists p w = (r, w') ->
  Fs.components p = (cs ++ [c])%list ->
  String.eqb c c' = false ->
  Fs.walk (cs ++ c' :: rest) (fs w') = Fs.walk (cs ++ c' :: rest) (fs w).
Proof.
  unfold remove_if_exists, bind, os_path_exists, os_remove, ret.
  intros H Hp Hne. destruct (Fs.exists_ (fs w) p).
  - destruct (Fs.stat (fs w) p) as [[|es]|]; inversion H; subst;
      try reflexivity.
    cbn [fs]. rewrite Hp. apply walk_remove_at_sibling, Hne.
  - inversion H; subst. reflexivity.
Qed.

(** The components of an entry of a directory whose name ends with the
    separator. *)
Lemma components_below (a c : string) :
  PyStr.endswith a OsPath.sep = true ->
  Fs.components (a ++ c) = (Fs.components a ++ Fs.components c)%list.
Proof.
  intros Ha. destruct (PathFacts.endswith_sep_inv _ Ha) as [a0 Ha0]. subst a.
  rewrite StrFacts.append_assoc, PathFacts.components_app_sep.
  rewrite PathFacts.components_with_sep. reflexivity.
Qed.

Lemma cache_hit_model_endswith_sep (model : string) :
  PyStr.endswith (cache_hit_model model) OsPath.sep = true.
Proof.
  unfold cache_hit_model.
  destruct (PyStr.endswith model OsPath.sep) eqn:E; [exact E|].
  apply StrFacts.endswith_app_sep.
Qed.

(** The cleanup after a cache hit works inside the model directory and
    leaves the checkpoints directory as it is. *)
Lemma cache_hit_cleanup_keeps_checkpoints (sd model : string) (w w' : World)
      (r : Result unit) :
  clean_cache sd (cache_hit_model model) w = (r, w') ->
  Fs.stat (fs w') (checkpoints_folder sd (cache_hit_model model))
  = Fs.stat (fs w) (checkpoints_folder sd (cache_hit_model model)).
Proof.
  intros H.
  assert (Hend : PyStr.endswith (sd ++ cache_hit_model model) OsPath.sep = true)
    by apply PathFacts.endswith_app, cache_hit_model_endswith_sep.
  assert (Hwalk : Fs.walk (Fs.components
                             (checkpoints_folder sd (cache_hit_model model)))
                    (fs w')
                  = Fs.walk (Fs.components
                               (checkpoints_folder sd (cache_hit_model model)))
                      (fs w)).
  { rewrite checkpoints_folder_components.
    set (cs := Fs.components (sd ++ cache_hit_model model)) in *.
    unfold clean_cache, bind in H.
    destruct (remove_if_exists _ w) as [r1 wa] eqn:E1.
    pose proof (remove_if_exists_sibling _ _ _ _ cs ".zip" "checkpoints" []
                  E1 (components_below _ ".zip" Hend) eq_refl) as Ha.
    destruct r1 as [[]|e1]; [|inversion H; subst; exact Ha].
    destruct (remove_if_exists _ wa) as [r2 wb] eqn:E2.
    pose proof (remove_if_exists_sibling _ _ _ _ cs ".tar.gz" "checkpoints" []
                  E2 (components_below _ ".tar.gz" Hend) eq_refl) as Hb.
    destruct r2 as [[]|e2]; [|inversion H; subst; congruence].
    pose proof (remove_if_exists_sibling _ _ _ _ cs ".tar" "checkpoints" []
                  H (components_below _ ".tar" Hend) eq_refl) as Hc.
    congruence. }
  unfold Fs.stat. rewrite Hwalk. reflexivity.
Qed.

Lemma checkpoints_folder_not_empty (sd m : string) :
  String.eqb (checkpoints_folder sd m) "" = false.
Proof.
  unfold checkpoints_folder.
  destruct ((sd ++ m) ++ OsPath.sep); reflexivity.
Qed.

Lemma walk_dir_stat (root : node) (p : string) (es : list (string * node)) :
  String.eqb p "" = false ->
  Fs.walk (Fs.components p) root = Some (Dir es) ->
  Fs.stat root p = Some (Dir es).
Proof. intros Hp Hw. unfold Fs.stat. rewrite Hp, Hw. reflexivity. Qed.

Section SecondResult.

Variable X : Externals.

(** X9: after a call of [download_model] that returned
    [folder/checkpoint], the same call in the world it left either fails
    in its cleanup (with the error of a removal inside the model directory)
    or returns the checkpoint of the same name, in the checkpoints folder
    spelled with the model name that ends with the separator: the same
    string when the first call was a cache hit, a doubled separator after
    a download. *)
Theorem second_call_returns_same_checkpoint (reg : list (string * string))
        (model : string) (saving_directory_arg : option string)
        (w w' : World) (path : string) :
  download_model X reg model saving_directory_arg w = (Ok path, w') ->
  exists sd m checkpoint,
    (m = model \/ m = cache_hit_model model)
    /\ path = OsPath.join (checkpoints_folder sd m) [checkpoint]
    /\ ((exists w'',
            download_model X reg model saving_directory_arg w'
            = (Ok (OsPath.join (checkpoints_folder sd (cache_hit_model model))
                     [checkpoint]), w''))
        \/
        (exists e w'',
            download_model X reg model saving_directory_arg w'
            = (Raise e, w'')
            /\ clean_cache sd (cache_hit_model model)
                 (mkWorld (fs w') (trace w' ++ [cache_hit_event model])%list)
               = (Raise e, w''))).
Proof.
  intros H.
  destruct (cache_hit_after_success _ _ _ _ _ _ _ H)
    as [sd [m [Hprep [Hdir [Hend [Hm Hsel]]]]]].
  destruct (select_checkpoint_inv _ _ _ _ _ Hsel)
    as [_ [files [_ [Hls _]]]].
  rewrite (select_checkpoint_listed _ _ _ _ Hls) in Hsel.
  destruct (last_item (matching_checkpoints files)) as [ckpt|e] eqn:El;
    [|discriminate].
  injection Hsel as Hpath. exists sd, m, ckpt.
  split; [exact Hm|]. split; [symmetry; exact Hpath|].
  rewrite (download_model_cache_hit _ _ _ _ _ _ _ Hprep Hdir).
  set (w0 := mkWorld (fs w') (trace w' ++ [cache_hit_event model])%list).
  unfold bind.
  destruct (clean_cache sd (cache_hit_model model) w0) as [[[]|e] w3] eqn:Ec.
  - left. exists w3.
    assert (Hls3 : os_listdir (checkpoints_folder sd (cache_hit_model model)) w3
                   = (Ok files, w3)).
    { destruct (os_listdir_inv _ _ _ _ Hls) as [_ [es [Hst Hfiles]]].
      unfold os_listdir.
      rewrite (cache_hit_cleanup_keeps_checkpoints _ _ _ _ _ Ec).
      assert (Hsame : Fs.stat (fs w0)
                        (checkpoints_folder sd (cache_hit_model model))
                      = Some (Dir es)).
      { apply walk_dir_stat; [apply checkpoints_folder_not_empty|].
        apply stat_dir in Hst.
        rewrite checkpoints_folder_components in Hst |- *.
        rewrite components_cache_hit_model.
        assert (Hc : Fs.components (sd ++ m) = Fs.components (sd ++ model)).
        { destruct Hm as [->| ->];
            [reflexivity|apply components_cache_hit_model]. }
        rewrite Hc in Hst. exact Hst. }
      rewrite Hsame, Hfiles. reflexivity. }
    rewrite (select_checkpoint_listed _ _ _ _ Hls3), El. reflexivity.
  - right. exists e, w3. split; reflexivity.
Qed.

End SecondResult.

(** ** A model that is not in the cache *)

Section FreshDownload.

Variable X : Externals.

(** Out of the cache and with an [https] entry whose file name is [name],
    lines 227-230 are the log line, the transfer to
    [saving_directory + name] and the extraction by the derived extension:
    the directory is there, an empty list of markers neither stops the
    download nor fails it. *)
Lemma locate_or_download_fresh_eq (reg : list (string * string))
      (sd model url name : string) (w1 : World) :
  PyStr.endswith sd OsPath.sep = true ->
  Fs.isdir (fs w1) sd = true ->
  Fs.isdir (fs w1) (sd ++ model) = false ->
  dict_get reg model = Some url ->
  PyStr.startswith url "https://" = true ->
  _get_filename_from_url X url = Ok name ->
  locate_or_download X reg sd model w1
  = match (external (urlretrieve_fs X url (sd ++ name)) ;;
           _maybe_extract X (sd ++ name) sd None)
            (mkWorld (fs w1)
               (trace w1
                ++ [EvLog ("Downloading " ++ name);
                    EvUrlretrieve url (sd ++ name)])%list)
    with
    | (Ok _, w2) => (Ok model, w2)
    | (Raise e, w2) => (Raise e, w2)
    end.
Proof.
  intros Hend Hsd Hdir Hreg Hurl Hname.
  assert (Hsep : PyStr.has_char OsPath.sep_char name = false).
  { unfold _get_filename_from_url in Hname.
    destruct (urlparse_path X url) as [path|e]; [|discriminate].
    inversion Hname. apply PathFacts.has_char_basename. }
  unfold locate_or_download. unfold bind at 1. unfold os_path_isdir.
  rewrite Hdir, Hreg, Hurl.
  unfold bind at 1.
  rewrite (download_slow_path X url sd None None [] name w1 Hname eq_refl).
  rewrite (PathFacts.join_below sd name Hend Hsep).
  unfold transfer_and_extract.
  unfold bind at 1 2.
  rewrite (ensure_directory_present _ _ Hsd).
  unfold logger_info, urlretrieve, emit, _check_download, marker_paths, bind.
  cbn [fs trace map forallb negb].
  rewrite <- app_assoc. cbn [app].
  destruct (external _ _) as [[u|e] w2]; [|reflexivity].
  destruct (_maybe_extract X _ sd None w2) as [[u'|e] w3]; reflexivity.
Qed.

Lemma grows_transfer (url path sd : string) :
  grows (external (urlretrieve_fs X url path) ;; _maybe_extract X path sd None).
Proof.
  apply grows_bind; [apply grows_external|].
  intros _. apply grows_maybe_extract.
Qed.

(** X10: a model that is not in the cache and has an [https] registry
    entry that [urlparse] accepts is always fetched, also when the archive
    is already in the saving directory: the first events of the run are
    the log line and the transfer of the URL to the saving directory
    followed by the last segment of the URL's path. *)
Theorem uncached_model_is_always_fetched (reg : list (string * string))
        (model : string) (saving_directory_arg : option string) (w : World)
        (sd : string) (w1 : World) (url name : string) :
  prepare_saving_directory X saving_directory_arg w = (Ok sd, w1) ->
  Fs.isdir (fs w1) (sd ++ model) = false ->
  dict_get reg model = Some url ->
  PyStr.startswith url "https://" = true ->
  _get_filename_from_url X url = Ok name ->
  exists tr,
    trace (snd (download_model X reg model saving_directory_arg w))
    = (trace w
       ++ EvLog ("Downloading " ++ name)
       :: EvUrlretrieve url (sd ++ name)
       :: tr)%list.
Proof.
  intros Hprep Hdir Hreg Hurl Hname.
  destruct (prepare_saving_directory_ok _ _ _ _ _ Hprep) as [Hend [Hsd Ht]].
  unfold download_model. rewrite (bind_ok _ _ _ _ _ Hprep).
  unfold bind at 1.
  rewrite (locate_or_download_fresh_eq _ _ _ _ _ _ Hend Hsd Hdir Hreg Hurl Hname).
  set (w2 := mkWorld (fs w1)
               (trace w1 ++ [EvLog ("Downloading " ++ name);
                             EvUrlretrieve url (sd ++ name)])%list).
  destruct (grows_transfer url (sd ++ name) sd w2) as [tr Htr].
  exists tr.
  destruct ((external (urlretrieve_fs X url (sd ++ name)) ;;
             _maybe_extract X (sd ++ name) sd None) w2) as [[u|e] w3].
  - rewrite cleanup_and_selection_trace. cbn [snd] in Htr. rewrite Htr.
    unfold w2. cbn [trace]. rewrite Ht, <- app_assoc. reflexivity.
  - cbn [snd] in Htr |- *. rewrite Htr.
    unfold w2. cbn [trace]. rewrite Ht, <- app_assoc. reflexivity.
Qed.

(** X11: a registry URL whose last path segment has no ["."] cannot be
    resolved: once the file has been transferred, the derivation of its
    extension fails and [download_model] raises [IndexError]; the
    transferred file stays, nothing is extracted or cleaned up. *)
Theorem registry_file_without_dot_fails (reg : list (string * string))
        (model : string) (saving_directory_arg : option string) (w : World)
        (sd : string) (w1 : World) (url name : string) (root : node) :
  prepare_saving_directory X saving_directory_arg w = (Ok sd, w1) ->
  Fs.isdir (fs w1) (sd ++ model) = false ->
  dict_get reg model = Some url ->
  PyStr.startswith url "https://" = true ->
  _get_filename_from_url X url = Ok name ->
  PyStr.has_char "." name = false ->
  urlretrieve_fs X url (sd ++ name) (fs w1) = (Ok tt, root) ->
  download_model X reg model saving_directory_arg w
  = (Raise no_extension_error,
     mkWorld root
       (trace w
        ++ [EvLog ("Downloading " ++ name);
            EvUrlretrieve url (sd ++ name);
            EvLog ("Extracting " ++ sd ++ name)])%list).
Proof.
  intros Hprep Hdir Hreg Hurl Hname Hdot Hnet.
  destruct (prepare_saving_directory_ok _ _ _ _ _ Hprep) as [Hend [Hsd Ht]].
  assert (Hsep : PyStr.has_char OsPath.sep_char name = false).
  { unfold _get_filename_from_url in Hname.
    destruct (urlparse_path X url) as [path|e]; [|discriminate].
    inversion Hname. apply PathFacts.has_char_basename. }
  unfold download_model. rewrite (bind_ok _ _ _ _ _ Hprep).
  apply bind_raise.
  rewrite (locate_or_download_fresh_eq _ _ _ _ _ _ Hend Hsd Hdir Hreg Hurl Hname).
  unfold bind at 1. unfold external. cbn [fs trace]. rewrite Hnet.
  unfold _maybe_extract, logger_info, emit, lift, bind. cbn [fs trace].
  unfold derive_extension.
  rewrite (StrFacts.basename_after_sep sd _ Hsep Hend).
  rewrite (StrFacts.split1_no_sep _ _ Hdot). cbn [item1].
  rewrite Ht, <- app_assoc. reflexivity.
Qed.

End FreshDownload.

(** ** The progress hook *)

Module ProgressFacts.
Import Progress.

Lemma advanced_update (k : Z) (t : Tqdm) :
  advanced (update k t) = (advanced t + k)%Z.
Proof.
  unfold advanced, update. cbn [updates].
  induction (updates t) as [|x l IH]; cbn [app fold_right]; [lia|].
  rewrite IH. lia.
Qed.

Lemma last_cons_Z (x : Z) (l : list Z) (d : Z) : last (x :: l) d = last l x.
Proof.
  revert x d. induction l as [|y l IH]; intros x d; [reflexivity|].
  change (last (x :: y :: l) d) with (last (y :: l) d).
  rewrite !IH. reflexivity.
Qed.

(** The increments telescope. *)
Lemma calls_advanced (bsize : Z) (cs : list Call) :
  (forall c, In c cs -> block_size c = bsize) ->
  forall h,
    advanced (bar (calls cs h))
    = (advanced (bar h) + (last (map blocks cs) (last_b h) - last_b h) * bsize)%Z
    /\ last_b (calls cs h) = last (map blocks cs) (last_b h).
Proof.
  induction cs as [|c cs IH]; intros Hall h.
  - cbn [calls fold_left map last]. split; [ring|reflexivity].
  - assert (Hc : block_size c = bsize) by (apply Hall; left; reflexivity).
    assert (Hrest : forall c', In c' cs -> block_size c' = bsize)
      by (intros c' Hin; apply Hall; right; exact Hin).
    change (calls (c :: cs) h)
      with (calls cs (inner (blocks c) (block_size c) (total_size c) h)).
    destruct (IH Hrest (inner (blocks c) (block_size c) (total_size c) h))
      as [Ha Hb].
    rewrite Ha, Hb. cbn [map]. rewrite last_cons_Z.
    unfold inner. cbn [bar last_b]. rewrite advanced_update, Hc.
    split; [|reflexivity].
    destruct (total_size c); unfold advanced, set_total; cbn [updates]; ring.
Qed.

Lemma calls_total_unknown (cs : list Call) :
  (forall c, In c cs -> total_size c = None) ->
  forall h, total (bar (calls cs h)) = total (bar h).
Proof.
  induction cs as [|c cs IH]; intros Hall h; [reflexivity|].
  change (calls (c :: cs) h)
    with (calls cs (inner (blocks c) (block_size c) (total_size c) h)).
  rewrite IH by (intros c' Hin; apply Hall; right; exact Hin).
  unfold inner. rewrite (Hall c (or_introl eq_refl)). reflexivity.
Qed.

Lemma calls_total_known (size : Z) (cs : list Call) :
  cs <> [] ->
  (forall c, In c cs -> total_size c = Some size) ->
  forall h, total (bar (calls cs h)) = Some size.
Proof.
  induction cs as [|c cs IH]; intros Hne Hall h; [congruence|].
  change (calls (c :: cs) h)
    with (calls cs (inner (blocks c) (block_size c) (total_size c) h)).
  destruct cs as [|c2 cs].
  - cbn [calls fold_left]. unfold inner.
    rewrite (Hall c (or_introl eq_refl)). reflexivity.
  - apply IH; [discriminate|].
    intros c' Hin. apply Hall. right. exact Hin.
Qed.

End ProgressFacts.

(** X12: with one block size, the calls of the hook that [_reporthook]
    returns advance the bar by the last block number times the block size,
    whatever block numbers came before (the increments telescope from 0),
    and the hook remembers that last number; the bar's total is the size
    that the calls report, and stays what it was when they report none. *)
Theorem progress_hook_telescopes (t : Progress.Tqdm) (bsize size : Z)
        (cs : list Progress.Call) :
  (forall c, In c cs -> Progress.block_size c = bsize) ->
  Progress.advanced (Progress.bar (Progress.calls cs (Progress._reporthook t)))
  = (Progress.advanced t + last (map Progress.blocks cs) 0 * bsize)%Z
  /\ Progress.last_b (Progress.calls cs (Progress._reporthook t))
     = last (map Progress.blocks cs) 0%Z
  /\ ((forall c, In c cs -> Progress.total_size c = None) ->
      Progress.total (Progress.bar (Progress.calls cs (Progress._reporthook t)))
      = Progress.total t)
  /\ (cs <> [] ->
      (forall c, In c cs -> Progress.total_size c = Some size) ->
      Progress.total (Progress.bar (Progress.calls cs (Progress._reporthook t)))
      = Some size).
Proof.
  intros Hall.
  destruct (ProgressFacts.calls_advanced bsize cs Hall (Progress._reporthook t))
    as [Ha Hb].
  cbn [Progress._reporthook Progress.bar Progress.last_b] in Ha, Hb.
  split; [rewrite Ha; ring|]. split; [exact Hb|]. split.
  - intros Hnone. apply (ProgressFacts.calls_total_unknown cs Hnone).
  - intros Hne Hsome. apply (ProgressFacts.calls_total_known size cs Hne Hsome).
Qed.

(** ** The archive beside a cached model *)

Module ArchiveNames.
Import PyStr OsPath.

Lemma split_no_sep (c : ascii) (s : string) :
  has_char c s = false -> split c s = [s].
Proof.
  induction s as [|x s IH]; [reflexivity|].
  cbn [has_char split]. intros H. apply orb_false_iff in H.
  destruct H as [Hx Hs]. rewrite Hx, (IH Hs). reflexivity.
Qed.

Lemma components_name (x : string) :
  has_char sep_char x = false -> Fs.skipped x = false ->
  Fs.components x = [x].
Proof.
  intros Hx Hs. unfold Fs.components. rewrite (split_no_sep _ _ Hx).
  cbn [filter]. rewrite Hs. reflexivity.
Qed.

Lemma components_dot_or_name (x : string) :
  has_char sep_char x = false ->
  Fs.components x = if Fs.skipped x then [] else [x].
Proof.
  intros Hx. unfold Fs.components. rewrite (split_no_sep _ _ Hx).
  cbn [filter]. destruct (Fs.skipped x); reflexivity.
Qed.

(** A name that does not end with the separator ends with a component. *)
Lemma last_component (s : string) :
  String.eqb s "" = false -> endswith s sep = false ->
  exists s0 x,
    s = s0 ++ x
    /\ (s0 = "" \/ endswith s0 sep = true)
    /\ has_char sep_char x = false
    /\ String.eqb x "" = false.
Proof.
  induction s as [|a r IH]; [discriminate|]. intros _ Hend.
  rewrite StrFacts.endswith_cons in Hend. apply orb_false_iff in Hend.
  destruct Hend as [Hone Hr].
  destruct (has_char sep_char r) eqn:Er.
  - assert (Hne : String.eqb r "" = false) by (destruct r; [discriminate|reflexivity]).
    destruct (IH Hne Hr) as [s0 [x [Hs [Hs0 [Hx Hxne]]]]].
    exists (String a s0), x. split; [cbn [append]; rewrite <- Hs; reflexivity|].
    split; [|split; assumption]. right.
    destruct Hs0 as [Hs0|Hs0].
    + subst s0. cbn [append] in Hs. subst r. rewrite Hx in Er. discriminate.
    + rewrite StrFacts.endswith_cons, Hs0. apply orb_true_r.
  - destruct (Ascii.eqb a sep_char) eqn:Ea.
    + apply Ascii.eqb_eq in Ea. subst a. exists sep, r.
      split; [reflexivity|]. split; [right; reflexivity|].
      split; [exact Er|]. destruct r; [discriminate Hone|reflexivity].
    + exists "", (String a r). split; [reflexivity|].
      split; [left; reflexivity|]. split; [|reflexivity].
      cbn [has_char]. rewrite Ea, Er. reflexivity.
Qed.

Lemma endswith_after (a b : string) :
  String.eqb b "" = false -> endswith (a ++ b) sep = endswith b sep.
Proof.
  intros Hb. induction a as [|x a IH]; [reflexivity|].
  cbn [append]. rewrite StrFacts.endswith_cons, IH.
  destruct (a ++ b) as [|y t] eqn:E.
  - destruct a; [cbn [append] in E; subst b; discriminate|discriminate].
  - replace (String.eqb (String x (String y t)) sep) with false; [reflexivity|].
    symmetry. apply String.eqb_neq. discriminate.
Qed.

Lemma skipped_after (x e : string) :
  String.eqb x "" = false -> String.eqb e "" = false ->
  Fs.skipped (x ++ e) = false.
Proof.
  intros Hx He. destruct x as [|a x]; [discriminate|].
  destruct e as [|b e]; [discriminate|].
  unfold Fs.skipped. apply orb_false_iff. split; apply String.eqb_neq.
  - discriminate.
  - cbn [append]. destruct x; discriminate.
Qed.

(** The entry [e'] of the directory [s] is another place than the name
    [s] followed by [e]. *)
Lemma beside_is_not_inside (s e e' : string) :
  String.eqb s "" = false -> endswith s sep = false ->
  has_char sep_char e = false -> String.eqb e "" = false ->
  has_char sep_char e' = false -> Fs.skipped e' = false ->
  e' <> "." ++ e ->
  Fs.components (s ++ e) <> Fs.components ((s ++ sep) ++ e').
Proof.
  intros Hs Hend He Hene He' Hskip Hdiff.
  destruct (last_component s Hs Hend) as [s0 [x [Hsx [Hs0 [Hx Hxne]]]]].
  assert (Hin : Fs.components ((s ++ sep) ++ e')
                = (Fs.components s0
                   ++ (if Fs.skipped x then [] else [x]) ++ [e'])%list).
  { rewrite StrFacts.append_assoc, PathFacts.components_app_sep.
    rewrite (components_name _ He' Hskip). rewrite app_assoc. f_equal.
    rewrite Hsx. destruct Hs0 as [Hs0|Hs0].
    - subst s0. cbn [append Fs.components]. apply components_dot_or_name, Hx.
    - rewrite (components_below _ x Hs0). f_equal.
      apply components_dot_or_name, Hx. }
  assert (Hout : Fs.components (s ++ e)
                 = (Fs.components s0 ++ [(x ++ e)%string])%list).
  { assert (Hname : Fs.components (x ++ e) = [x ++ e]).
    { apply components_name; [|apply skipped_after; assumption].
      rewrite StrFacts.has_char_app, Hx, He. reflexivity. }
    rewrite Hsx, StrFacts.append_assoc. destruct Hs0 as [Hs0|Hs0].
    - subst s0. exact Hname.
    - rewrite (components_below _ _ Hs0), Hname. reflexivity. }
  rewrite Hin, Hout. intros Heq. apply app_inv_head in Heq.
  destruct (Fs.skipped x) eqn:Esk.
  - cbn [app] in Heq. inversion Heq as [Hxe].
    unfold Fs.skipped in Esk. rewrite Hxne in Esk. cbn [orb] in Esk.
    apply String.eqb_eq in Esk. subst x. apply Hdiff. symmetry. exact Hxe.
  - discriminate Heq.
Qed.

End ArchiveNames.

Section CachedArchive.

Variable X : Externals.

(** X13: on a cache hit for a model name that is not empty and does not
    end with the separator, the cleanup looks inside the model directory
    and never at the archives beside it: each of
    [<saving_directory><model>.zip], [.tar.gz] and [.tar] is a file after
    the call exactly when it was one before. *)
Theorem cache_hit_keeps_archive (reg : list (string * string))
        (model : string) (saving_directory_arg : option string) (w : World)
        (sd : string) (w1 : World) (q : string) :
  prepare_saving_directory X saving_directory_arg w = (Ok sd, w1) ->
  Fs.isdir (fs w1) (sd ++ model) = true ->
  String.eqb model "" = false ->
  PyStr.endswith model OsPath.sep = false ->
  In q (archive_paths sd model) ->
  Fs.isfile (fs (snd (download_model X reg model saving_directory_arg w))) q
  = Fs.isfile (fs w1) q.
Proof.
  intros Hprep Hdir Hmodel Hend Hq.
  rewrite (download_model_cache_hit _ _ _ _ _ _ _ Hprep Hdir).
  set (w0 := mkWorld (fs w1) (trace w1 ++ [cache_hit_event model])%list).
  assert (Hfs : fs (snd ((clean_cache sd (cache_hit_model model) ;;
                          select_checkpoint sd (cache_hit_model model)) w0))
                = fs (snd (clean_cache sd (cache_hit_model model) w0))).
  { unfold bind.
    destruct (clean_cache sd (cache_hit_model model) w0) as [[[]|e] w3];
      [|reflexivity].
    rewrite select_checkpoint_world. reflexivity. }
  rewrite Hfs.
  destruct (clean_cache sd (cache_hit_model model) w0) as [r w3] eqn:Ec.
  destruct (clean_cache_frame _ _ _ _ _ Ec) as [_ Hframe]. cbn [snd].
  change (fs w1) with (fs w0). apply Hframe.
  assert (Hs : String.eqb (sd ++ model) "" = false).
  { destruct sd; [exact Hmodel|reflexivity]. }
  assert (Hsend : PyStr.endswith (sd ++ model) OsPath.sep = false).
  { rewrite (ArchiveNames.endswith_after _ _ Hmodel). exact Hend. }
  unfold cache_hit_model. rewrite Hend.
  intros p Hp. unfold archive_paths in Hp, Hq.
  rewrite <- (StrFacts.append_assoc sd model OsPath.sep) in Hp.
  destruct Hq as [Hq|[Hq|[Hq|[]]]]; subst q;
    destruct Hp as [Hp|[Hp|[Hp|[]]]]; subst p;
    apply ArchiveNames.beside_is_not_inside;
    try assumption; try reflexivity; discriminate.
Qed.

End CachedArchive.

(** ** More runs on the concrete world *)

Section MoreRuns.
Import Demo Scenes.

Lemma saving_directory_is_prepared_witness :
  prepare_saving_directory externals (Some "/cache/models")
    (world_of empty_cache) = (Ok "/cache/models/", prepared)
  /\ Fs.isdir (fs (world_of empty_cache)) "/cache/models/" = false
  /\ PyStr.endswith "/cache/models/" OsPath.sep = true
  /\ Fs.isdir (fs prepared) "/cache/models/" = true.
Proof.
  assert (H : prepare_saving_directory externals (Some "/cache/models")
                (world_of empty_cache) = (Ok "/cache/models/", prepared))
    by reflexivity.
  split; [exact H|]. split; [reflexivity|].
  pose proof (saving_directory_is_prepared externals (Some "/cache/models")
                (world_of empty_cache) "/cache/models/" prepared H) as P.
  exact (conj (proj1 (proj2 P)) (proj1 (proj2 (proj2 P)))).
Defined.



Lemma filename_from_url_is_a_name_witness :
  _get_filename_from_url externals demo_url = Ok "demo.zip"
  /\ PyStr.endswith "/cache/" OsPath.sep = true
  /\ OsPath.join "/cache/" ["demo.zip"] = "/cache/" ++ "demo.zip".
Proof.
  assert (H : _get_filename_from_url externals demo_url = Ok "demo.zip")
    by reflexivity.
  split; [exact H|]. split; [reflexivity|].
  refine (proj2 (proj2 (proj2 (filename_from_url_is_a_name externals demo_url
                                 "/cache/" "demo.zip" H))) _).
  reflexivity.
Defined.

Lemma returned_path_is_a_checkpoint_witness :
  download_model externals registry "demo" (Some "/cache/")
    (world_of (cached checkpoints_acb))
  = (Ok "/cache/demo//checkpoints/b.ckpt", hit)
  /\ PyStr.endswith "/cache/demo//checkpoints/b.ckpt" ".ckpt" = true.
Proof.
  assert (H : download_model externals registry "demo" (Some "/cache/")
                (world_of (cached checkpoints_acb))
              = (Ok "/cache/demo//checkpoints/b.ckpt", hit)) by reflexivity.
  exact (conj H (proj1 (returned_path_is_a_checkpoint externals registry "demo"
                          (Some "/cache/") (world_of (cached checkpoints_acb))
                          hit "/cache/demo//checkpoints/b.ckpt" H))).
Defined.

Lemma invalid_registry_entry_raises_witness :
  dict_get registry "legacy" = Some "s3://bucket/legacy.zip"
  /\ PyStr.startswith "s3://bucket/legacy.zip" "https://" = false
  /\ download_model externals registry "legacy" (Some "/cache/")
       (world_of empty_cache)
     = (Raise (Exception_ "Invalid model name!"), world_of empty_cache).
Proof.
  split; [reflexivity|]. split; [reflexivity|].
  refine (invalid_registry_entry_raises externals registry "legacy"
            (Some "/cache/") (world_of empty_cache) "/cache/"
            (world_of empty_cache) "s3://bucket/legacy.zip" _ _ _ _);
    reflexivity.
Defined.

Lemma cached_model_ignores_registry_witness :
  Fs.isdir (fs (world_of (cached checkpoints_acb))) ("/cache/" ++ "demo") = true
  /\ download_model externals registry "demo" (Some "/cache/")
       (world_of (cached checkpoints_acb))
     = download_model externals [] "demo" (Some "/cache/")
         (world_of (cached checkpoints_acb)).
Proof.
  split; [reflexivity|].
  refine (proj1 (cached_model_ignores_registry externals registry [] "demo"
                   (Some "/cache/") (world_of (cached checkpoints_acb))
                   "/cache/" (world_of (cached checkpoints_acb)) _ _));
    reflexivity.
Defined.

Lemma fresh_run :
  download_model externals registry "demo" (Some "/cache")
    (world_of empty_cache)
  = (Ok "/cache/demo/checkpoints/b.ckpt", cleaned).
Proof. reflexivity. Defined.

Lemma second_call_does_not_download_witness :
  download_model externals registry "demo" (Some "/cache")
    (world_of empty_cache)
  = (Ok "/cache/demo/checkpoints/b.ckpt", cleaned)
  /\ trace (snd (download_model externals registry "demo" (Some "/cache")
                   cleaned))
     = (trace cleaned ++ [cache_hit_event "demo"])%list.
Proof.
  exact (conj fresh_run
           (second_call_does_not_download externals registry "demo"
              (Some "/cache") (world_of empty_cache) cleaned
              "/cache/demo/checkpoints/b.ckpt" fresh_run)).
Defined.

Lemma second_call_returns_same_checkpoint_witness :
  fst (download_model externals registry "demo" (Some "/cache") cleaned)
  = Ok "/cache/demo//checkpoints/b.ckpt"
  /\ exists sd m checkpoint,
      (m = "demo" \/ m = cache_hit_model "demo")
      /\ "/cache/demo/checkpoints/b.ckpt"
         = OsPath.join (checkpoints_folder sd m) [checkpoint]
      /\ ((exists w'',
              download_model externals registry "demo" (Some "/cache") cleaned
              = (Ok (OsPath.join (checkpoints_folder sd (cache_hit_model "demo"))
                       [checkpoint]), w''))
          \/
          (exists e w'',
              download_model externals registry "demo" (Some "/cache") cleaned
              = (Raise e, w'')
              /\ clean_cache sd (cache_hit_model "demo")
                   (mkWorld (fs cleaned)
                      (trace cleaned ++ [cache_hit_event "demo"])%list)
                 = (Raise e, w''))).
Proof.
  split; [reflexivity|].
  exact (second_call_returns_same_checkpoint externals registry "demo"
           (Some "/cache") (world_of empty_cache) cleaned
           "/cache/demo/checkpoints/b.ckpt" fresh_run).
Defined.

Lemma uncached_model_is_always_fetched_witness :
  Fs.isdir (fs (world_of empty_cache)) ("/cache/" ++ "demo") = false
  /\ _get_filename_from_url externals demo_url = Ok "demo.zip"
  /\ exists tr,
      trace (snd (download_model externals registry "demo" (Some "/cache/")
                    (world_of empty_cache)))
      = (trace (world_of empty_cache)
         ++ EvLog ("Downloading " ++ "demo.zip")
         :: EvUrlretrieve demo_url ("/cache/" ++ "demo.zip")
         :: tr)%list.
Proof.
  split; [reflexivity|]. split; [reflexivity|].
  refine (uncached_model_is_always_fetched externals registry "demo"
            (Some "/cache/") (world_of empty_cache) "/cache/"
            (world_of empty_cache) demo_url "demo.zip" _ _ _ _ _); reflexivity.
Defined.

Lemma registry_file_without_dot_fails_witness :
  _get_filename_from_url externals "https://example.test/modelnoext"
  = Ok "modelnoext"
  /\ PyStr.has_char "." "modelnoext" = false
  /\ Fs.isfile with_modelnoext "/cache/modelnoext" = true
  /\ download_model externals registry "noext" (Some "/cache/")
       (world_of empty_cache)
     = (Raise no_extension_error,
        mkWorld with_modelnoext
          [EvLog "Downloading modelnoext";
           EvUrlretrieve "https://example.test/modelnoext" "/cache/modelnoext";
           EvLog "Extracting /cache/modelnoext"]).
Proof.
  split; [reflexivity|]. split; [reflexivity|]. split; [reflexivity|].
  refine (registry_file_without_dot_fails externals registry "noext"
            (Some "/cache/") (world_of empty_cache) "/cache/"
            (world_of empty_cache) "https://example.test/modelnoext"
            "modelnoext" with_modelnoext _ _ _ _ _ _ _); reflexivity.
Defined.

Lemma progress_hook_telescopes_witness :
  Progress.advanced
    (Progress.bar (Progress.calls four_calls (Progress._reporthook fresh_bar)))
  = (3 * 8192)%Z
  /\ Progress.total
       (Progress.bar (Progress.calls four_calls (Progress._reporthook fresh_bar)))
     = Some 20000%Z.
Proof.
  assert (Hsize : forall c, In c four_calls -> Progress.block_size c = 8192%Z)
    by (intros c [<-|[<-|[<-|[<-|[]]]]]; reflexivity).
  assert (Htotal : forall c, In c four_calls ->
                             Progress.total_size c = Some 20000%Z)
    by (intros c [<-|[<-|[<-|[<-|[]]]]]; reflexivity).
  assert (Hne : four_calls <> []) by discriminate.
  pose proof (progress_hook_telescopes fresh_bar 8192 20000 four_calls Hsize)
    as P.
  exact (conj (proj1 P) (proj2 (proj2 (proj2 P)) Hne Htotal)).
Defined.

Lemma cache_hit_keeps_archive_witness :
  Fs.isfile cached_with_archive "/cache/demo.zip" = true
  /\ Fs.isfile
       (fs (snd (download_model externals registry "demo" (Some "/cache/")
                   (world_of cached_with_archive))))
       (("/cache/" ++ "demo") ++ ".zip")
     = Fs.isfile (fs (world_of cached_with_archive))
         (("/cache/" ++ "demo") ++ ".zip").
Proof.
  split; [reflexivity|].
  refine (cache_hit_keeps_archive externals registry "demo" (Some "/cache/")
            (world_of cached_with_archive) "/cache/"
            (world_of cached_with_archive) (("/cache/" ++ "demo") ++ ".zip")
            _ _ _ _ _); try reflexivity.
  left. reflexivity.
Defined.

End MoreRuns.
